(** * veritas: the battle-summary analyzer (analyzer.py)

    A shallow embedding of [InteractiveAnalyzer]: the summary loader
    ([load_all_summaries]), the overview ([create_widgets],
    [create_comparison_plots]) and the detail handler
    ([show_detail_window]), with the properties its specification states.

    Conventions of the embedding:
    - a Python [str] is a [string]; comparison is by character code, as
      Python compares code points;
    - a value produced by [json.load] is a [pyval]; numbers are kept in an
      abstract numeric type (class [PyNumber]);
    - a method is a computation in the monad [M]: it threads the
      application state [app] and either returns or raises an [exn];
    - the file system is an explicit argument ([filesystem]): the listing
      of a directory and, per path, what [open] followed by [json.load]
      gives;
    - calls into Tk and matplotlib are recorded as data (windows, bars,
      axis limits): what is drawn, not how. *)

From Stdlib Require Import Ascii QArith.
From stdpp Require Import list strings pretty sorting.

Set Warnings "-register-all".

Local Open Scope nat_scope.
Local Open Scope stdpp_scope.

(** ** Python strings *)

Module PyStr.

(** [s[i:j]] for non-negative literal bounds; out-of-range bounds are
    clamped, as Python does. *)
Definition slice (i j : nat) (s : string) : string :=
  String.substring i (j - i) s.

(** [s[:-n]]: everything but the last [n] characters (empty when the
    string is shorter than [n]). *)
Definition drop_last (n : nat) (s : string) : string :=
  String.substring 0 (String.length s - n) s.

(** [s.split(sep)] for a one-character separator: never empty. *)
Fixpoint split (sep : ascii) (s : string) : list string :=
  match s with
  | EmptyString => [EmptyString]
  | String c s' =>
      if Ascii.eqb c sep then EmptyString :: split sep s'
      else match split sep s' with
           | [] => [String c EmptyString]
           | p :: ps => String c p :: ps
           end
  end.

(** [s.startswith(p)] *)
Definition startswith (p s : string) : bool := String.prefix p s.

(** [s.endswith(p)] *)
Definition endswith (p s : string) : bool :=
  (String.length p <=? String.length s)
  && String.eqb (String.substring (String.length s - String.length p)
                                  (String.length p) s) p.

(** [s.replace(old, new, 1)]: the first occurrence only. *)
Fixpoint replace_first (old new s : string) : string :=
  if String.prefix old s
  then new +:+ String.substring (String.length old) (String.length s) s
  else match s with
       | EmptyString => EmptyString
       | String c s' => String c (replace_first old new s')
       end.

(** The line break. *)
Definition newline : string := String "010" EmptyString.

(** A character of [s] equal to [c]? *)
Fixpoint mem (c : ascii) (s : string) : bool :=
  match s with
  | EmptyString => false
  | String d s' => Ascii.eqb d c || mem c s'
  end.

(** [a < b] and [a <= b] on strings, by character code. *)
Definition lt (a b : string) : Prop := String.ltb a b = true.
Definition le (a b : string) : Prop := String.leb a b = true.

Definition is_digit (c : ascii) : bool :=
  ((48 <=? N_of_ascii c) && (N_of_ascii c <=? 57))%N.

Fixpoint all_digits (s : string) : bool :=
  match s with
  | EmptyString => true
  | String c s' => is_digit c && all_digits s'
  end.

(** [s.count(c)] for a character [c]. *)
Fixpoint count (c : ascii) (s : string) : nat :=
  match s with
  | EmptyString => 0
  | String d s' => (if Ascii.eqb d c then 1 else 0) + count c s'
  end.

(** [int(s)] for a string of decimal digits. *)
Definition digit (c : ascii) : N := (N_of_ascii c - 48)%N.

Fixpoint int_of_digits (s : string) : N :=
  match s with
  | EmptyString => 0%N
  | String c s' => (digit c * 10 ^ N.of_nat (String.length s') + int_of_digits s')%N
  end.

End PyStr.

(** ** Paths: [os.path.join], [os.path.basename] (POSIX) *)

Definition path_join (a b : string) : string :=
  if PyStr.startswith "/" b then b
  else if String.eqb a EmptyString || PyStr.endswith "/" a then a +:+ b
  else a +:+ "/" +:+ b.

(** The part after the last slash. *)
Definition basename (p : string) : string :=
  List.last (PyStr.split "/" p) EmptyString.

(** ** Session label and timestamp key (analyzer.py, lines 34-48) *)

(** [parts = filename[:-5].split('_')] *)
Definition filename_parts (filename : string) : list string :=
  PyStr.split "_" (PyStr.drop_last 5 filename).

(** The pair [(session_id, timestamp_str)] computed from a file name. *)
Definition session_of_filename (filename : string) : string * string :=
  let parts := filename_parts filename in
  if 6 <=? length parts then
    let team_name := nth 1 parts EmptyString in
    let battle_mode := nth 2 parts EmptyString in
    let time_part := nth 5 parts EmptyString in
    let date_part := nth 4 parts EmptyString in
    let date_str := PyStr.slice 0 4 date_part +:+ "-" +:+ PyStr.slice 4 6 date_part
                    +:+ "-" +:+ PyStr.slice 6 8 date_part in
    let time_str := PyStr.slice 0 2 time_part +:+ ":" +:+ PyStr.slice 2 4 time_part
                    +:+ ":" +:+ PyStr.slice 4 6 time_part in
    (team_name +:+ " [" +:+ battle_mode +:+ "] - " +:+ date_str +:+ " " +:+ time_str,
     date_part +:+ time_part)
  else (filename, "0").

(** ** Values, exceptions, outcomes *)

(** What the embedding needs of Python's numbers ([int] and [float]). *)
Class PyNumber (num : Type) := {
  num_zero : num;                  (* the literal [0] *)
  num_1_3 : num;                   (* the literal [1.3] *)
  num_leb : num → num → bool;      (* [<=] *)
  num_mul : num → num → num;       (* [*] *)
  num_type_name : num → string     (* ["int"] or ["float"] *)
}.

(** An exception: its class and [str(e)]. Only subclasses of [Exception]
    are modelled. *)
Record exn := Exn { exn_class : string; exn_str : string }.

Inductive outcome (A : Type) : Type :=
  | Returned (a : A)
  | Raised (e : exn).
Arguments Returned {A} a.
Arguments Raised {A} e.

#[global] Instance outcome_ret : MRet outcome := λ A a, Returned a.
#[global] Instance outcome_bind : MBind outcome := λ A B f m,
  match m with
  | Returned a => f a
  | Raised e => Raised e
  end.

(** One record of [all_data]; [V] is the type of the two metrics. *)
Record summary (V : Type) := Summary {
  filepath : string;
  session_id : string;
  timestamp : string;
  total_dpav : V;
  total_av : V
}.
Arguments Summary {V}.
Arguments filepath {V}.
Arguments session_id {V}.
Arguments timestamp {V}.
Arguments total_dpav {V}.
Arguments total_av {V}.

(** ** Python's stable sort *)

(** [precedes y x]: [y] sorts strictly before [x]. [x] is inserted in front
    of the first element that does not strictly precede it, so elements
    that compare equal keep the order they came in. *)
Fixpoint stable_insert {A} (precedes : A → A → bool) (x : A) (l : list A) : list A :=
  match l with
  | [] => [x]
  | y :: l' => if precedes y x then y :: stable_insert precedes x l' else x :: l
  end.

Definition stable_sort {A} (precedes : A → A → bool) (l : list A) : list A :=
  foldr (stable_insert precedes) [] l.

(** The order a sort by [precedes] establishes: [a] may stand before [b]
    when [b] does not strictly precede [a]. *)
Definition not_after {A} (precedes : A → A → bool) (a b : A) : Prop :=
  precedes b a = false.

(** Descending by a string key. *)
Definition descending {A} (key : A → string) (a b : A) : Prop :=
  PyStr.le (key b) (key a).

(** [l.sort(key=key, reverse=True)] with string keys. *)
Definition sort_key_reverse {A} (key : A → string) (l : list A) : list A :=
  stable_sort (λ y x, String.ltb (key x) (key y)) l.

Section Analyzer.
Context {num : Type} `{PyNumber num}.

(** The result of [json.load]. A [dict] is its items in insertion order,
    keys unique. *)
Inductive pyval : Type :=
  | PNone
  | PBool (b : bool)
  | PNum (n : num)
  | PStr (s : string)
  | PList (l : list pyval)
  | PDict (items : list (string * pyval)).

Definition type_name (v : pyval) : string :=
  match v with
  | PNone => "NoneType"
  | PBool _ => "bool"
  | PNum n => num_type_name n
  | PStr _ => "str"
  | PList _ => "list"
  | PDict _ => "dict"
  end.

Definition dict_lookup (key : string) (items : list (string * pyval)) : option pyval :=
  snd <$> List.find (λ kv, String.eqb (fst kv) key) items.

(** [data.get(key, default)] *)
Definition py_get (data : pyval) (key : string) (default : pyval) : outcome pyval :=
  match data with
  | PDict items => Returned (from_option id default (dict_lookup key items))
  | _ => Raised (Exn "AttributeError"
                     ("'" +:+ type_name data +:+ "' object has no attribute 'get'"))
  end.

(** [list(v.keys())] *)
Definition py_keys (v : pyval) : outcome (list string) :=
  match v with
  | PDict items => Returned (fst <$> items)
  | _ => Raised (Exn "AttributeError"
                     ("'" +:+ type_name v +:+ "' object has no attribute 'keys'"))
  end.

(** [v.values()] *)
Definition py_values (v : pyval) : outcome (list pyval) :=
  match v with
  | PDict items => Returned (snd <$> items)
  | _ => Raised (Exn "AttributeError"
                     ("'" +:+ type_name v +:+ "' object has no attribute 'values'"))
  end.

(** [d[key]] for a string key *)
Definition py_getitem (d : pyval) (key : string) : outcome pyval :=
  match d with
  | PDict items =>
      match dict_lookup key items with
      | Some v => Returned v
      | None => Raised (Exn "KeyError" ("'" +:+ key +:+ "'"))
      end
  | PList _ => Raised (Exn "TypeError" "list indices must be integers or slices, not str")
  | PStr _ => Raised (Exn "TypeError" "string indices must be integers, not 'str'")
  | _ => Raised (Exn "TypeError" ("'" +:+ type_name d +:+ "' object is not subscriptable"))
  end.

(** [[f(x) for x in l]]: stops at the first exception. *)
Fixpoint comprehension {A B} (f : A → outcome B) (l : list A) : outcome (list B) :=
  match l with
  | [] => Returned []
  | x :: l' => y ← f x; ys ← comprehension f l'; mret (y :: ys)
  end.

(** ** The file system *)

(** [listdir d] is the enumeration of directory [d] ([None]: it cannot be
    listed); [json_load p] is [with open(p) as f: json.load(f)]. *)
Record filesystem := {
  listdir : string → option (list string);
  json_load : string → outcome pyval
}.

(** [fnmatch(name, "SUMMARY_*.json")] *)
Definition fnmatch_summary (name : string) : bool :=
  PyStr.startswith "SUMMARY_" name && PyStr.endswith ".json" name
  && (13 <=? String.length name).

(** [glob.glob(os.path.join(directory, "SUMMARY_*.json"))], for a
    directory name without glob wildcards: the matching entries, in the
    order the directory enumerates them. *)
Definition glob_summaries (fs : filesystem) (directory : string) : list string :=
  match listdir fs directory with
  | None => []
  | Some names => path_join directory <$> List.filter fnmatch_summary names
  end.

(** ** What the windows show *)

Inductive colour := gold | skyblue | limegreen | lightcoral.

Record bar := Bar { bar_label : string; bar_height : num; bar_colour : colour }.

(** One bar chart: the bars left to right, the upper y limit when one is
    set, and the positions [(i, v)] of the value annotations. *)
Record axes := Axes {
  bars : list bar;
  ylim_top : option num;
  texts : list (nat * num)
}.

Record link := Link {
  link_row : nat;
  link_col : nat;
  link_text : string;
  link_target : summary pyval
}.

(** The "Battle Sessions" frame. *)
Inductive panel :=
  | NotBuilt
  | Placeholder (text : string)
  | Links (ls : list link).

(** [canvas_comparison]: absent, created and empty, showing the two
    charts, or [NotModelled] when a metric is not a number and the
    libraries drew without raising (what they draw from such a column is
    outside the embedding). *)
Inductive canvas :=
  | NoFigure
  | Blank
  | Drawn (ax1 ax2 : axes)
  | NotModelled.

(** A detail window: created with an empty figure, then filled. *)
Inductive detail_content :=
  | EmptyFigure
  | DetailCharts (team : pyval) (char_names : list string) (char_damages : list pyval).

Record toplevel := Toplevel { tl_title : string; tl_content : detail_content }.

Record app := App {
  summaries_data : option (list (summary pyval));
  session_panel : panel;
  canvas_comparison : canvas;
  toplevels : list toplevel;
  console : list string
}.

(** The object before [__init__] runs. *)
Definition new_app : app := App None NotBuilt NoFigure [] [].

(** ** The monad of methods: state and exceptions *)

Definition M (A : Type) : Type := app → outcome A * app.

#[global] Instance M_ret : MRet M := λ A a st, (Returned a, st).
#[global] Instance M_bind : MBind M := λ A B f m st,
  match m st with
  | (Returned a, st') => f a st'
  | (Raised e, st') => (Raised e, st')
  end.

Definition lift {A} (o : outcome A) : M A := λ st, (o, st).

(** [try: m  except Exception as e: h e] *)
Definition try_except {A} (m : M A) (h : exn → M A) : M A := λ st,
  match m st with
  | (Returned a, st') => (Returned a, st')
  | (Raised e, st') => h e st'
  end.

Definition modify (f : app → app) : M unit := λ st, (Returned tt, f st).
Definition gets {A} (f : app → A) : M A := λ st, (Returned (f st), st).

(** [print(line)] *)
Definition print (line : string) : M unit :=
  modify (λ st, App (summaries_data st) (session_panel st) (canvas_comparison st)
                    (toplevels st) (console st ++ [line])).

Definition set_summaries_data (d : option (list (summary pyval))) : M unit :=
  modify (λ st, App d (session_panel st) (canvas_comparison st)
                    (toplevels st) (console st)).

Definition set_session_panel (p : panel) : M unit :=
  modify (λ st, App (summaries_data st) p (canvas_comparison st)
                    (toplevels st) (console st)).

Definition set_canvas (c : canvas) : M unit :=
  modify (λ st, App (summaries_data st) (session_panel st) c
                    (toplevels st) (console st)).

(** [tk.Toplevel(...)] with its title and an empty figure. *)
Definition open_toplevel (title : string) : M unit :=
  modify (λ st, App (summaries_data st) (session_panel st) (canvas_comparison st)
                    (toplevels st ++ [Toplevel title EmptyFigure]) (console st)).

(** Draw into the window opened last. *)
Definition fill_toplevel (c : detail_content) : M unit :=
  modify (λ st,
    App (summaries_data st) (session_panel st) (canvas_comparison st)
        (match reverse (toplevels st) with
         | [] => []
         | w :: ws => reverse ws ++ [Toplevel (tl_title w) c]
         end)
        (console st)).

Fixpoint for_each {A S} (body : S → A → M S) (s : S) (l : list A) : M S :=
  match l with
  | [] => mret s
  | x :: l' => s' ← body s x; for_each body s' l'
  end.

(** ** [load_all_summaries] (lines 23-64) *)

(** The body of the [try] (lines 34-59), up to the record that is
    appended: the label and key from the file name, then the read, then
    the two metrics with their default [0]. *)
Definition summary_of_file (fs : filesystem) (path : string) : outcome (summary pyval) :=
  let filename := basename path in
  let '(label, timestamp_str) := session_of_filename filename in
  data ← json_load fs path;
  dpav ← py_get data "total_dpav" (PNum num_zero);
  av ← py_get data "total_av" (PNum num_zero);
  mret (Summary path label timestamp_str dpav av).

(** One turn of the loop: the record is appended, or the exception is
    printed and [all_data] stays as it was. *)
Definition load_step (fs : filesystem) (all_data : list (summary pyval)) (path : string)
  : M (list (summary pyval)) :=
  try_except
    (r ← lift (summary_of_file fs path); mret (all_data ++ [r]))
    (λ e, print ("Error processing file " +:+ path +:+ ": " +:+ exn_str e);;
          mret all_data).

Definition load_all_summaries (fs : filesystem) (directory : string)
  : M (option (list (summary pyval))) :=
  let summary_files := glob_summaries fs directory in
  match summary_files with
  | [] =>
      print ("No summary files found in '" +:+ directory +:+ "'.");;
      mret None
  | _ :: _ =>
      print ("Found " +:+ pretty (length summary_files)
             +:+ " summary files. Processing...");;
      all_data ← for_each (load_step fs) [] summary_files;
      mret (Some (match all_data with
                  | [] => all_data
                  | _ :: _ => sort_key_reverse timestamp all_data
                  end))
  end.

(** What the loop leaves behind, as functions of the enumeration: the
    records of the files that load, and the lines printed for the others,
    both in enumeration order. *)
Definition loads (fs : filesystem) (path : string) : bool :=
  match summary_of_file fs path with
  | Returned _ => true
  | Raised _ => false
  end.

Definition loaded (fs : filesystem) (files : list string) : list (summary pyval) :=
  omap (λ path, match summary_of_file fs path with
                | Returned r => Some r
                | Raised _ => None
                end) files.

Definition load_errors (fs : filesystem) (files : list string) : list string :=
  omap (λ path, match summary_of_file fs path with
                | Returned _ => None
                | Raised e => Some ("Error processing file " +:+ path +:+ ": " +:+ exn_str e)
                end) files.

(** The state after [lines] have been printed. *)
Definition printed (lines : list string) (st : app) : app :=
  App (summaries_data st) (session_panel st) (canvas_comparison st)
      (toplevels st) (console st ++ lines).

(** The state after a detail window [w] has been added. *)
Definition opened (w : toplevel) (st : app) : app :=
  App (summaries_data st) (session_panel st) (canvas_comparison st)
      (toplevels st ++ [w]) (console st).

(** ** [create_widgets] (lines 66-122) *)

(** [if x:] for [None], a list. *)
Definition truthy {A} (d : option (list A)) : bool :=
  match d with
  | Some (_ :: _) => true
  | _ => false
  end.

Definition session_links (rows : list (summary pyval)) : list link :=
  imap (λ i s, Link (i / 2) (i mod 2)
                    ("View Detail - " +:+ basename (filepath s)) s) rows.

Definition create_widgets : M unit :=
  data ← gets summaries_data;
  if truthy data then
    set_session_panel (Links (session_links (default [] data)));;
    set_canvas Blank
  else
    set_session_panel (Placeholder "No summary files found.").

(** ** [create_comparison_plots] (lines 124-168) *)

(** [df.sort_values(by=..., ascending=...)], pandas' sort of the rows by a
    numeric column: a parameter of the embedding. *)
Variable sort_values :
  (summary num → num) → bool → list (summary num) → list (summary num).

(** What lines 125-168 do with records of which some metric is not a
    number: pandas and matplotlib decide whether an exception is raised on
    the way (a string that reaches [max_dpav * 1.3] at line 146 raises
    TypeError). A parameter of the embedding. *)
Variable draw_object_frame : list (summary pyval) → outcome unit.

(** [pd.DataFrame(rows)] when both metric columns hold numbers. *)
Definition as_num (v : pyval) : option num :=
  match v with
  | PNum n => Some n
  | _ => None
  end.

Definition to_frame (rows : list (summary pyval)) : option (list (summary num)) :=
  mapM (λ r, dpav ← as_num (total_dpav r);
             av ← as_num (total_av r);
             Some (Summary (filepath r) (session_id r) (timestamp r) dpav av)) rows.

(** The record of a frame row: the same fields, the metrics as JSON
    numbers. *)
Definition numeric_record (d : summary num) : summary pyval :=
  Summary (filepath d) (session_id d) (timestamp d)
          (PNum (total_dpav d)) (PNum (total_av d)).

Definition num_max (a b : num) : num := if num_leb a b then b else a.

(** [column.max()] *)
Definition series_max (l : list num) : option num :=
  match l with
  | [] => None
  | x :: l' => Some (fold_left num_max l' x)
  end.

(** One ranked chart: rows sorted by [column], the first row's label
    highlighted wherever it occurs, the labels broken at the first [" - "],
    the y axis reaching 1.3 times the column maximum. *)
Definition ranked_axes (column : summary num → num) (ascending : bool)
    (best other : colour) (df : list (summary num)) : axes :=
  let sorted := sort_values column ascending df in
  let best_session := session_id <$> head sorted in
  let colours := (λ r, if decide (Some (session_id r) = best_session)
                       then best else other) <$> sorted in
  let labels := (λ r, PyStr.replace_first " - " PyStr.newline (session_id r))
                <$> sorted in
  let heights := column <$> sorted in
  Axes (zip_with (λ lh c, Bar (fst lh) (snd lh) c) (zip labels heights) colours)
       ((λ m, num_mul m num_1_3) <$> series_max heights)
       (imap (λ i v, (i, v)) heights).

(** The order of a ranked chart, and the maximum of a column. *)
Definition ranked (column : summary num → num) (ascending : bool)
    (a b : summary num) : Prop :=
  if ascending then num_leb (column a) (column b) = true
  else num_leb (column b) (column a) = true.

Definition is_maximum (m : num) (l : list num) : Prop :=
  m ∈ l ∧ ∀ x, x ∈ l → num_leb x m = true.

Definition comparison_axes (df : list (summary num)) : axes * axes :=
  (ranked_axes total_dpav false gold skyblue df,
   ranked_axes total_av true limegreen lightcoral df).

Definition create_comparison_plots : M unit :=
  data ← gets summaries_data;
  match to_frame (default [] data) with
  | Some df => let '(ax1, ax2) := comparison_axes df in set_canvas (Drawn ax1 ax2)
  | None => lift (draw_object_frame (default [] data));; set_canvas NotModelled
  end.

(** ** [__init__] (lines 12-21) *)

Definition init (fs : filesystem) : M unit :=
  data ← load_all_summaries fs "battle_summaries";
  set_summaries_data data;;
  create_widgets;;
  if truthy data then create_comparison_plots else mret tt.

(** ** [show_detail_window] (lines 170-208) *)

(** Lines 187-191: the team name and the two series, from the parsed
    document. *)
Definition detail_series (data : pyval) : outcome detail_content :=
  team ← py_get data "team_name" (PStr "Unknown");
  characters ← py_get data "characters" (PDict []);
  char_names ← py_keys characters;
  values ← py_values characters;
  char_damages ← comprehension (λ d, py_getitem d "total_damage") values;
  mret (DetailCharts team char_names char_damages).

Definition show_detail_window (fs : filesystem) (summary_info : summary pyval) : M unit :=
  r ← try_except
        (data ← lift (json_load fs (filepath summary_info)); mret (Some data))
        (λ e, print ("Could not open detail file: " +:+ exn_str e);; mret None);
  match r with
  | None => mret tt
  | Some data =>
      open_toplevel ("Team Detail: " +:+ session_id summary_info);;
      content ← lift (detail_series data);
      fill_toplevel content
  end.

End Analyzer.

Arguments pyval : clear implicits.
Arguments filesystem : clear implicits.
Arguments app : clear implicits.
Arguments axes : clear implicits.
Arguments bar : clear implicits.

(** ** A concrete instance: exact decimals, a stable [sort_values] *)

(** The numbers of a JSON document as exact rationals. *)
#[global] Instance Q_number : PyNumber Q := {|
  num_zero := 0%Q;
  num_1_3 := (13 # 10)%Q;
  num_leb := Qle_bool;
  num_mul := Qmult;
  num_type_name := λ _, "float"
|}.

(** A stable sort by a numeric column, one admissible [sort_values]. *)
Definition sort_values_stable {num} `{PyNumber num}
    (column : summary num → num) (ascending : bool) (df : list (summary num))
  : list (summary num) :=
  stable_sort (λ y x, if ascending then negb (num_leb (column x) (column y))
                      else negb (num_leb (column y) (column x))) df.

(** The document of a session; the entry of one character lacks its
    damage. *)
Definition example_items : list (string * pyval Q) :=
  [("total_dpav", PNum (12345 # 10)%Q); ("total_av", PNum (300 # 1)%Q);
   ("team_name", PStr "Acheron");
   ("characters", PDict [("Acheron", PDict [("total_damage", PNum (900 # 1)%Q)]);
                         ("Pela", PDict [])])].

(** The directory of the specification's example, with a third file that
    does not parse. *)
Definition example_fs : filesystem Q := {|
  listdir := λ d,
    if String.eqb d "battle_summaries"
    then Some ["SUMMARY_weird.json"; "notes.txt"; "SUMMARY_broken_MoC_v1_20240116_090000.json";
               "SUMMARY_Acheron_MoC_v1_20240115_143022.json"]
    else None;
  json_load := λ p,
    if String.eqb p "battle_summaries/SUMMARY_weird.json"
    then Returned (PDict [("total_av", PNum (250 # 1)%Q)])
    else if String.eqb p "battle_summaries/SUMMARY_Acheron_MoC_v1_20240115_143022.json"
    then Returned (PDict example_items)
    else if String.eqb p "battle_summaries/SUMMARY_broken_MoC_v1_20240116_090000.json"
    then Raised (Exn "JSONDecodeError" "Expecting value: line 1 column 1 (char 0)")
    else Raised (Exn "FileNotFoundError" ("[Errno 2] No such file or directory: '" +:+ p +:+ "'"))
|}.

(** The record the loader builds for the well-formed file of that
    directory. *)
Definition example_record : summary (pyval Q) :=
  Summary "battle_summaries/SUMMARY_Acheron_MoC_v1_20240115_143022.json"
          "Acheron [MoC] - 2024-01-15 14:30:22" "20240115143022"
          (PNum (12345 # 10)%Q) (PNum (300 # 1)%Q).

(** The record of the file whose name does not follow the pattern, and
    the list the loader returns for that directory. *)
Definition example_weird_record : summary (pyval Q) :=
  Summary "battle_summaries/SUMMARY_weird.json" "SUMMARY_weird.json" "0"
          (PNum 0%Q) (PNum (250 # 1)%Q).

Definition example_result : list (summary (pyval Q)) :=
  [example_record; example_weird_record].

(** A record whose file has been removed since the load. *)
Definition example_gone_record : summary (pyval Q) :=
  Summary "battle_summaries/SUMMARY_Gone_MoC_v1_20240101_000000.json"
          "Gone [MoC] - 2024-01-01 00:00:00" "20240101000000"
          (PNum (10 # 1)%Q) (PNum (20 # 1)%Q).

(** A file system in which no directory can be listed. *)
Definition empty_fs : filesystem Q := {|
  listdir := λ _, None;
  json_load := λ p,
    Raised (Exn "FileNotFoundError"
                ("[Errno 2] No such file or directory: '" +:+ p +:+ "'"))
|}.

(** A frame of three sessions, two of them with the same label. *)
Definition example_frame : list (summary Q) :=
  [Summary "battle_summaries/SUMMARY_A_MoC_v1_20240115_143022.json"
           "A [MoC] - 2024-01-15 14:30:22" "20240115143022" (100 # 1)%Q (300 # 1)%Q;
   Summary "battle_summaries/SUMMARY_A_MoC_v2_20240115_143022.json"
           "A [MoC] - 2024-01-15 14:30:22" "20240115143022" (250 # 1)%Q (280 # 1)%Q;
   Summary "battle_summaries/SUMMARY_B_PF_v1_20240116_101500.json"
           "B [PF] - 2024-01-16 10:15:00" "20240116101500" (175 # 1)%Q (310 # 1)%Q].

(** A second directory: two sessions whose documents are objects and,
    between them, a file that holds a JSON list. *)
Definition sessions_fs : filesystem Q := {|
  listdir := λ d,
    if String.eqb d "battle_summaries"
    then Some ["SUMMARY_A_MoC_v1_20240115_143022.json";
               "SUMMARY_list_MoC_v1_20240117_000000.json";
               "SUMMARY_B_PF_v1_20240116_101500.json"]
    else None;
  json_load := λ p,
    if String.eqb p "battle_summaries/SUMMARY_A_MoC_v1_20240115_143022.json"
    then Returned (PDict [("total_dpav", PNum (100 # 1)%Q); ("total_av", PNum (300 # 1)%Q)])
    else if String.eqb p "battle_summaries/SUMMARY_B_PF_v1_20240116_101500.json"
    then Returned (PDict [("total_dpav", PNum (175 # 1)%Q); ("total_av", PNum (310 # 1)%Q);
                          ("characters", PList [])])
    else if String.eqb p "battle_summaries/SUMMARY_list_MoC_v1_20240117_000000.json"
    then Returned (PList [PNum (1 # 1)%Q])
    else Raised (Exn "FileNotFoundError" ("[Errno 2] No such file or directory: '" +:+ p +:+ "'"))
|}.

Definition session_a : summary (pyval Q) :=
  Summary "battle_summaries/SUMMARY_A_MoC_v1_20240115_143022.json"
          "A [MoC] - 2024-01-15 14:30:22" "20240115143022"
          (PNum (100 # 1)%Q) (PNum (300 # 1)%Q).

Definition session_b : summary (pyval Q) :=
  Summary "battle_summaries/SUMMARY_B_PF_v1_20240116_101500.json"
          "B [PF] - 2024-01-16 10:15:00" "20240116101500"
          (PNum (175 # 1)%Q) (PNum (310 # 1)%Q).

(** The record of the file that holds a list, as a selection would pass
    it to the detail handler. *)
Definition session_list : summary (pyval Q) :=
  Summary "battle_summaries/SUMMARY_list_MoC_v1_20240117_000000.json"
          "list [MoC] - 2024-01-17 00:00:00" "20240117000000"
          (PNum 0%Q) (PNum 0%Q).

(** A directory whose only matching file cannot be read. *)
Definition broken_fs : filesystem Q := {|
  listdir := λ d,
    if String.eqb d "battle_summaries" then Some ["SUMMARY_x.json"; "readme.md"] else None;
  json_load := λ p, Raised (Exn "PermissionError" ("[Errno 13] Permission denied: '" +:+ p +:+ "'"))
|}.

(** Libraries that raise on every frame with a metric that is not a
    number, with the message of [str * float]. *)
Definition objects_raise (rows : list (summary (pyval Q))) : outcome unit :=
  Raised (Exn "TypeError" "can't multiply sequence by non-int of type 'float'").

(** A directory in which two files carry the same date and time: the
    second run of a team is enumerated before the first, a later session
    between them. *)
Definition ties_fs : filesystem Q := {|
  listdir := λ d,
    if String.eqb d "battle_summaries"
    then Some ["SUMMARY_A_MoC_v2_20240115_143022.json";
               "SUMMARY_B_PF_v1_20240116_101500.json";
               "SUMMARY_A_MoC_v1_20240115_143022.json"]
    else None;
  json_load := λ p,
    if String.eqb p "battle_summaries/SUMMARY_A_MoC_v2_20240115_143022.json"
    then Returned (PDict [("total_dpav", PNum (250 # 1)%Q); ("total_av", PNum (280 # 1)%Q)])
    else if String.eqb p "battle_summaries/SUMMARY_B_PF_v1_20240116_101500.json"
    then Returned (PDict [("total_dpav", PNum (175 # 1)%Q); ("total_av", PNum (310 # 1)%Q)])
    else if String.eqb p "battle_summaries/SUMMARY_A_MoC_v1_20240115_143022.json"
    then Returned (PDict [("total_dpav", PNum (100 # 1)%Q); ("total_av", PNum (300 # 1)%Q)])
    else Raised (Exn "FileNotFoundError" ("[Errno 2] No such file or directory: '" +:+ p +:+ "'"))
|}.

Definition tie_second_run : summary (pyval Q) :=
  Summary "battle_summaries/SUMMARY_A_MoC_v2_20240115_143022.json"
          "A [MoC] - 2024-01-15 14:30:22" "20240115143022"
          (PNum (250 # 1)%Q) (PNum (280 # 1)%Q).

Definition tie_first_run : summary (pyval Q) :=
  Summary "battle_summaries/SUMMARY_A_MoC_v1_20240115_143022.json"
          "A [MoC] - 2024-01-15 14:30:22" "20240115143022"
          (PNum (100 # 1)%Q) (PNum (300 # 1)%Q).

(** What the loader returns there: the later session, then the two tied
    records in the order of the enumeration. *)
Definition ties_result : list (summary (pyval Q)) :=
  [session_b; tie_second_run; tie_first_run].

(** A directory whose only summary holds a string where a number is
    expected. *)
Definition string_metric_fs : filesystem Q := {|
  listdir := λ d,
    if String.eqb d "battle_summaries"
    then Some ["SUMMARY_A_MoC_v1_20240115_143022.json"]
    else None;
  json_load := λ p,
    if String.eqb p "battle_summaries/SUMMARY_A_MoC_v1_20240115_143022.json"
    then Returned (PDict [("total_dpav", PStr "n/a"); ("total_av", PNum (300 # 1)%Q)])
    else Raised (Exn "FileNotFoundError" ("[Errno 2] No such file or directory: '" +:+ p +:+ "'"))
|}.

Definition string_metric_record : summary (pyval Q) :=
  Summary "battle_summaries/SUMMARY_A_MoC_v1_20240115_143022.json"
          "A [MoC] - 2024-01-15 14:30:22" "20240115143022"
          (PStr "n/a") (PNum (300 # 1)%Q).

(** * Properties *)

(** ** Strings *)

Lemma append_cons (c : ascii) (a b : string) : String c a +:+ b = String c (a +:+ b).
Proof. reflexivity. Qed.

Lemma append_nil_l (b : string) : EmptyString +:+ b = b.
Proof. reflexivity. Qed.

Lemma append_nil_r (s : string) : s +:+ EmptyString = s.
Proof. induction s as [|c s IH]; [done | by rewrite append_cons, IH]. Qed.

Lemma append_assoc (a b c : string) : (a +:+ b) +:+ c = a +:+ b +:+ c.
Proof. induction a as [|x a IH]; [done | by rewrite !append_cons, IH]. Qed.

Lemma substring_0_length (s : string) : String.substring 0 (String.length s) s = s.
Proof. induction s as [|c s IH]; [done | by simpl; f_equal]. Qed.

Lemma substring_0_app (a b : string) :
  String.substring 0 (String.length a) (a +:+ b) = a.
Proof.
  induction a as [|x a IH]; [by destruct b|].
  rewrite append_cons. simpl. by rewrite IH.
Qed.

Lemma substring_skip_app (a b : string) (n m : nat) :
  String.substring (String.length a + n) m (a +:+ b) = String.substring n m b.
Proof. induction a as [|x a IH]; [done | rewrite append_cons; apply IH]. Qed.

Lemma substring_length_app (a b : string) (m : nat) :
  String.substring (String.length a) m (a +:+ b) = String.substring 0 m b.
Proof. rewrite <- (substring_skip_app a b 0 m). by rewrite Nat.add_0_r. Qed.

(** The three fields of a string laid out as [a b c]. *)
Lemma slice_fields (a b c : string) (la lb lc : nat) :
  String.length a = la → String.length b = lb → String.length c = lc →
  PyStr.slice 0 la (a +:+ b +:+ c) = a
  ∧ PyStr.slice la (la + lb) (a +:+ b +:+ c) = b
  ∧ PyStr.slice (la + lb) (la + lb + lc) (a +:+ b +:+ c) = c.
Proof.
  intros <- <- <-. unfold PyStr.slice. repeat split.
  - rewrite Nat.sub_0_r. apply substring_0_app.
  - replace (String.length a + String.length b - String.length a)
      with (String.length b) by lia.
    rewrite substring_length_app. apply substring_0_app.
  - replace (String.length a + String.length b + String.length c
             - (String.length a + String.length b))
      with (String.length c) by lia.
    rewrite substring_skip_app, substring_length_app. apply substring_0_length.
Qed.

(** [split] undoes joining with the separator. *)
Lemma split_no_sep (sep : ascii) (a : string) :
  PyStr.mem sep a = false → PyStr.split sep a = [a].
Proof.
  induction a as [|x a IH]; simpl; [done|].
  intros [Hx Ha]%orb_false_iff. rewrite Hx, (IH Ha). done.
Qed.

Lemma split_app_sep (sep : ascii) (a b : string) :
  PyStr.mem sep a = false →
  PyStr.split sep (a +:+ String sep b) = a :: PyStr.split sep b.
Proof.
  induction a as [|x a IH]; [rewrite append_nil_l | rewrite append_cons]; simpl.
  - intros _. by rewrite Ascii.eqb_refl.
  - intros [Hx Ha]%orb_false_iff. rewrite Hx, (IH Ha). done.
Qed.

Lemma length_append (a b : string) :
  String.length (a +:+ b) = String.length a + String.length b.
Proof.
  induction a as [|x a IH]; [done|].
  rewrite append_cons. simpl. by rewrite IH.
Qed.

Lemma drop_last_app (a b : string) :
  PyStr.drop_last (String.length b) (a +:+ b) = a.
Proof.
  unfold PyStr.drop_last. rewrite length_append.
  replace (String.length a + String.length b - String.length b)
    with (String.length a) by lia.
  apply substring_0_app.
Qed.

(** ** The order on strings *)

Lemma ascii_compare_refl (a : ascii) : Ascii.compare a a = Eq.
Proof. unfold Ascii.compare. apply N.compare_refl. Qed.

Lemma ascii_compare_lt_trans (a b c : ascii) :
  Ascii.compare a b = Lt → Ascii.compare b c = Lt → Ascii.compare a c = Lt.
Proof.
  unfold Ascii.compare. rewrite !N.compare_lt_iff. apply N.lt_trans.
Qed.

Lemma string_compare_refl (s : string) : String.compare s s = Eq.
Proof. induction s as [|c s IH]; simpl; [done | by rewrite ascii_compare_refl]. Qed.

Lemma string_compare_lt_trans (a b c : string) :
  String.compare a b = Lt → String.compare b c = Lt → String.compare a c = Lt.
Proof.
  revert b c. induction a as [|x a IH]; intros [|y b] [|z c]; simpl; try done.
  destruct (Ascii.compare x y) eqn:Hxy; try done.
  - apply Ascii.compare_eq_iff in Hxy as ->.
    destruct (Ascii.compare y z) eqn:Hyz; try done. apply IH.
  - destruct (Ascii.compare y z) eqn:Hyz; try done.
    + apply Ascii.compare_eq_iff in Hyz as ->. by rewrite Hxy.
    + by rewrite (ascii_compare_lt_trans _ _ _ Hxy Hyz).
Qed.

Lemma string_ltb_irrefl (s : string) : String.ltb s s = false.
Proof. unfold String.ltb. by rewrite string_compare_refl. Qed.

Lemma string_ltb_asym (a b : string) : String.ltb a b = true → String.ltb b a = false.
Proof.
  unfold String.ltb. rewrite (String.compare_antisym b a).
  by destruct (String.compare a b).
Qed.

Lemma string_ltb_leb (a b : string) : String.ltb a b = negb (String.leb b a).
Proof.
  unfold String.ltb, String.leb. rewrite (String.compare_antisym b a).
  by destruct (String.compare a b).
Qed.

Lemma string_leb_trans (a b c : string) :
  String.leb a b = true → String.leb b c = true → String.leb a c = true.
Proof.
  unfold String.leb.
  destruct (String.compare a b) eqn:Hab; try done; intros _.
  - apply String.compare_eq_iff in Hab as ->. done.
  - destruct (String.compare b c) eqn:Hbc; try done; intros _.
    + apply String.compare_eq_iff in Hbc as <-. by rewrite Hab.
    + by rewrite (string_compare_lt_trans _ _ _ Hab Hbc).
Qed.

#[global] Instance PyStr_le_trans : Transitive PyStr.le.
Proof. intros a b c. apply string_leb_trans. Qed.

(** The fallback key sorts strictly below every key that starts with a
    digit and has more than one character. *)
Lemma fallback_key_below (key : string) :
  1 < String.length key → PyStr.all_digits key = true → PyStr.lt "0" key.
Proof.
  unfold PyStr.lt. destruct key as [|c [|d key]]; simpl; try lia. intros _.
  intros [[Hc _]%andb_prop _]%andb_prop.
  unfold String.ltb. simpl. unfold Ascii.compare.
  change (N_of_ascii "0") with 48%N.
  apply N.leb_le in Hc.
  destruct (N.compare_spec 48 (N_of_ascii c)) as [_|_|Hlt]; try done. lia.
Qed.

(** ** The stable sort *)

Section StableSort.
Context {A : Type} (precedes : A → A → bool).

Lemma stable_insert_perm (x : A) (l : list A) : stable_insert precedes x l ≡ₚ x :: l.
Proof.
  induction l as [|y l IH]; simpl; [done|].
  destruct (precedes y x); [|done].
  rewrite IH. apply Permutation_swap.
Qed.

Lemma stable_sort_perm (l : list A) : stable_sort precedes l ≡ₚ l.
Proof.
  induction l as [|x l IH]; simpl; [done|].
  rewrite stable_insert_perm. by f_equiv.
Qed.

(** Elements of one class, none of which strictly precedes another, keep
    their order. *)
Lemma stable_insert_filter (P : A → Prop) `{!∀ x, Decision (P x)} (x : A) (l : list A) :
  (∀ a b, P a → P b → precedes a b = false) →
  filter P (stable_insert precedes x l) = filter P (x :: l).
Proof.
  intros Hclass. induction l as [|y l IH]; simpl; [done|].
  destruct (precedes y x) eqn:Hyx; [|done].
  rewrite !filter_cons, IH, filter_cons.
  destruct (decide (P y)) as [Hy|Hy], (decide (P x)) as [Hx|Hx]; try done.
  by rewrite (Hclass y x Hy Hx) in Hyx.
Qed.

Lemma stable_sort_filter (P : A → Prop) `{!∀ x, Decision (P x)} (l : list A) :
  (∀ a b, P a → P b → precedes a b = false) →
  filter P (stable_sort precedes l) = filter P l.
Proof.
  intros Hclass. induction l as [|x l IH]; simpl; [done|].
  rewrite stable_insert_filter by done.
  by rewrite !filter_cons, IH.
Qed.

Hypothesis precedes_asym : ∀ x y, precedes x y = true → precedes y x = false.

Lemma stable_insert_sorted (x : A) (l : list A) :
  Sorted (not_after precedes) l → Sorted (not_after precedes) (stable_insert precedes x l).
Proof.
  induction 1 as [|y l Hl IH Hhd]; simpl.
  - repeat constructor.
  - destruct (precedes y x) eqn:Hyx.
    + constructor; [done|].
      destruct Hhd as [|z l Hyz]; simpl.
      * constructor. by apply precedes_asym.
      * destruct (precedes z x); constructor; [done | by apply precedes_asym].
    + constructor; [by constructor | by constructor].
Qed.

Lemma stable_sort_sorted (l : list A) : Sorted (not_after precedes) (stable_sort precedes l).
Proof.
  induction l as [|x l IH]; simpl; [constructor | by apply stable_insert_sorted].
Qed.

End StableSort.

Lemma Sorted_weaken {A} (R1 R2 : relation A) (l : list A) :
  (∀ x y, R1 x y → R2 x y) → Sorted R1 l → Sorted R2 l.
Proof.
  intros HR. induction 1 as [|x l _ IH Hhd]; constructor; [done|].
  destruct Hhd; constructor; auto.
Qed.

(** [sort_key_reverse]: a stable, descending permutation. *)
Lemma sort_key_reverse_perm {A} (key : A → string) (l : list A) :
  sort_key_reverse key l ≡ₚ l.
Proof. apply stable_sort_perm. Qed.

Lemma sort_key_reverse_sorted {A} (key : A → string) (l : list A) :
  StronglySorted (descending key) (sort_key_reverse key l).
Proof.
  apply Sorted_StronglySorted.
  - intros a b c Hab Hbc. unfold descending in *. by etrans.
  - eapply Sorted_weaken; [|apply stable_sort_sorted].
    + intros a b. unfold not_after, descending, PyStr.le.
      rewrite string_ltb_leb. by intros ->%negb_false_iff.
    + intros x y. apply string_ltb_asym.
Qed.

Lemma sort_key_reverse_stable {A} (key : A → string) (k : string) (l : list A) :
  filter (λ r, key r = k) (sort_key_reverse key l) = filter (λ r, key r = k) l.
Proof.
  apply (stable_sort_filter _ (λ r, key r = k)).
  intros a b -> ->. apply string_ltb_irrefl.
Qed.

(** Two descending lists that agree class by class are the same list: the
    stable descending arrangement of a list is unique. *)
Lemma descending_stable_unique {A} (key : A → string) (l1 l2 : list A) :
  StronglySorted (descending key) l1 →
  StronglySorted (descending key) l2 →
  (∀ k, filter (λ r, key r = k) l1 = filter (λ r, key r = k) l2) →
  l1 = l2.
Proof.
  intros H1. revert l2. induction H1 as [|x l1 Hs1 IH Hx]; intros l2 H2 Hcls.
  - destruct l2 as [|y l2]; [done|].
    specialize (Hcls (key y)). by rewrite filter_cons_True in Hcls.
  - destruct H2 as [|y l2 Hs2 Hy].
    + specialize (Hcls (key x)). by rewrite filter_cons_True in Hcls.
    + assert (key x = key y) as Hk.
      { apply String.leb_antisym.
        - assert (x ∈ y :: l2) as [->|Hin]%elem_of_cons.
          { pose proof (Hcls (key x)) as Hc.
            rewrite (filter_cons_True _ x) in Hc by done.
            eapply (list_elem_of_filter (λ r, key r = key x)).
            rewrite <- Hc. left. }
          * unfold String.leb. by rewrite string_compare_refl.
          * rewrite Forall_forall in Hy. by apply Hy.
        - assert (y ∈ x :: l1) as [->|Hin]%elem_of_cons.
          { pose proof (Hcls (key y)) as Hc.
            rewrite (filter_cons_True _ y) in Hc by done.
            eapply (list_elem_of_filter (λ r, key r = key y)).
            rewrite Hc. left. }
          * unfold String.leb. by rewrite string_compare_refl.
          * rewrite Forall_forall in Hx. by apply Hx. }
      pose proof (Hcls (key x)) as Hc.
      rewrite (filter_cons_True _ x), (filter_cons_True _ y) in Hc by done.
      injection Hc as -> Hc. f_equal. apply IH; [done|].
      intros k. destruct (decide (key y = k)) as [<-|Hne]; [done|].
      specialize (Hcls k). by rewrite !filter_cons_False in Hcls.
Qed.

(** ** The loader *)

Section Loader.
Context {num : Type} `{PyNumber num}.
Implicit Types (fs : filesystem num) (st : app num) (r : summary (pyval num)).

Lemma printed_nil st : printed [] st = st.
Proof. destruct st. unfold printed. simpl. by rewrite app_nil_r. Qed.

Lemma printed_printed (l1 l2 : list string) st :
  printed l2 (printed l1 st) = printed (l1 ++ l2) st.
Proof. unfold printed. simpl. by rewrite app_assoc. Qed.

Lemma print_run (line : string) st : print line st = (Returned tt, printed [line] st).
Proof. reflexivity. Qed.

(** What a file contributes: a record exactly when it reads as a JSON
    object. *)
Lemma summary_of_file_object fs (path : string) (items : list (string * pyval num)) :
  json_load fs path = Returned (PDict items) →
  summary_of_file fs path
  = Returned (Summary path (session_of_filename (basename path)).1
                      (session_of_filename (basename path)).2
                      (from_option id (PNum num_zero) (dict_lookup "total_dpav" items))
                      (from_option id (PNum num_zero) (dict_lookup "total_av" items))).
Proof.
  intros Hload. unfold summary_of_file.
  destruct (session_of_filename (basename path)) as [label key].
  by rewrite Hload.
Qed.

Lemma summary_of_file_raised fs (path : string) (e : exn) :
  json_load fs path = Raised e → summary_of_file fs path = Raised e.
Proof.
  intros Hload. unfold summary_of_file.
  destruct (session_of_filename (basename path)) as [label key].
  by rewrite Hload.
Qed.

Lemma summary_of_file_returned fs (path : string) r :
  summary_of_file fs path = Returned r →
  ∃ items, json_load fs path = Returned (PDict items)
    ∧ filepath r = path
    ∧ (session_id r, timestamp r) = session_of_filename (basename path)
    ∧ total_dpav r = from_option id (PNum num_zero) (dict_lookup "total_dpav" items)
    ∧ total_av r = from_option id (PNum num_zero) (dict_lookup "total_av" items).
Proof.
  destruct (json_load fs path) as [data|e] eqn:Hload.
  - destruct data as [| | | | |items];
      try (unfold summary_of_file;
           destruct (session_of_filename (basename path)); by rewrite Hload).
    rewrite (summary_of_file_object _ _ _ Hload). intros [= <-]. exists items.
    simpl. by destruct (session_of_filename (basename path)).
  - by rewrite (summary_of_file_raised _ _ _ Hload).
Qed.

(** One turn of the loop. *)
Lemma load_step_run fs (acc : list (summary (pyval num))) (path : string) st :
  load_step fs acc path st
  = match summary_of_file fs path with
    | Returned r => (Returned (acc ++ [r]), st)
    | Raised e =>
        (Returned acc,
         printed ["Error processing file " +:+ path +:+ ": " +:+ exn_str e] st)
    end.
Proof.
  unfold load_step, try_except, lift, mbind, M_bind.
  by destruct (summary_of_file fs path).
Qed.

(** The loop, run from any accumulator and state. *)
Lemma for_each_load_step fs (files : list string) (acc : list (summary (pyval num))) st :
  for_each (load_step fs) acc files st
  = (Returned (acc ++ loaded fs files), printed (load_errors fs files) st).
Proof.
  revert acc st. induction files as [|path files IH]; intros acc st.
  - simpl. by rewrite app_nil_r, printed_nil.
  - cbn [for_each]. unfold mbind at 1, M_bind at 1. rewrite load_step_run.
    unfold loaded, load_errors. cbn [omap list_omap].
    destruct (summary_of_file fs path) as [r|e].
    + rewrite IH. by rewrite <- app_assoc.
    + rewrite IH, printed_printed. done.
Qed.

(** [load_all_summaries], run. *)
Lemma load_all_summaries_run fs (directory : string) st :
  load_all_summaries fs directory st
  = match glob_summaries fs directory with
    | [] => (Returned None,
             printed ["No summary files found in '" +:+ directory +:+ "'."] st)
    | (_ :: _) as files =>
        (Returned (Some (sort_key_reverse timestamp (loaded fs files))),
         printed (("Found " +:+ pretty (length files) +:+ " summary files. Processing...")
                  :: load_errors fs files) st)
    end.
Proof.
  unfold load_all_summaries.
  destruct (glob_summaries fs directory) as [|path files]; [done|].
  unfold mbind at 1, M_bind at 1. rewrite print_run.
  unfold mbind at 1, M_bind at 1. rewrite for_each_load_step.
  rewrite printed_printed. unfold mret, M_ret.
  by destruct (loaded fs (path :: files)).
Qed.

Lemma load_all_summaries_some fs (directory : string) st :
  glob_summaries fs directory ≠ [] →
  load_all_summaries fs directory st
  = (Returned (Some (sort_key_reverse timestamp (loaded fs (glob_summaries fs directory)))),
     printed (("Found " +:+ pretty (length (glob_summaries fs directory))
               +:+ " summary files. Processing...")
              :: load_errors fs (glob_summaries fs directory)) st).
Proof.
  intros Hne. rewrite load_all_summaries_run.
  by destruct (glob_summaries fs directory).
Qed.

(** The loader never raises. *)
Lemma load_all_summaries_returns fs (directory : string) st :
  ∃ res st', load_all_summaries fs directory st = (Returned res, st').
Proof.
  rewrite load_all_summaries_run.
  destruct (glob_summaries fs directory); eauto.
Qed.

(** Every record of the result comes from an enumerated file that read
    as an object, and carries the label and key of that file's name. *)
Lemma load_all_summaries_records fs (directory : string) st
    (l : list (summary (pyval num))) r :
  (load_all_summaries fs directory st).1 = Returned (Some l) → r ∈ l →
  filepath r ∈ glob_summaries fs directory
  ∧ summary_of_file fs (filepath r) = Returned r.
Proof.
  rewrite load_all_summaries_run.
  destruct (glob_summaries fs directory) as [|path files] eqn:Hglob; [done|].
  remember (path :: files) as enumerated. cbn [fst]. intros [= <-].
  rewrite sort_key_reverse_perm.
  unfold loaded. intros (p & Hp & Hr)%list_elem_of_omap.
  destruct (summary_of_file fs p) as [r'|] eqn:Hsum; [|done].
  injection Hr as ->.
  destruct (summary_of_file_returned _ _ _ Hsum) as (_ & _ & -> & _). done.
Qed.

Lemma load_all_summaries_labels fs (directory : string) st
    (l : list (summary (pyval num))) r :
  (load_all_summaries fs directory st).1 = Returned (Some l) → r ∈ l →
  (session_id r, timestamp r) = session_of_filename (basename (filepath r)).
Proof.
  intros Hrun Hr.
  destruct (load_all_summaries_records _ _ _ _ _ Hrun Hr) as [_ Hsum].
  by destruct (summary_of_file_returned _ _ _ Hsum) as (_ & _ & _ & ? & _).
Qed.

End Loader.

(** ** Session label and timestamp key *)

Lemma session_of_filename_fields (filename p0 team mode p3 date time : string)
    (rest : list string) :
  filename_parts filename = p0 :: team :: mode :: p3 :: date :: time :: rest →
  session_of_filename filename
  = (team +:+ " [" +:+ mode +:+ "] - "
     +:+ (PyStr.slice 0 4 date +:+ "-" +:+ PyStr.slice 4 6 date +:+ "-" +:+ PyStr.slice 6 8 date)
     +:+ " "
     +:+ (PyStr.slice 0 2 time +:+ ":" +:+ PyStr.slice 2 4 time +:+ ":" +:+ PyStr.slice 4 6 time),
     date +:+ time).
Proof. intros Hparts. unfold session_of_filename. by rewrite Hparts. Qed.

Lemma session_of_filename_short (filename : string) :
  length (filename_parts filename) < 6 → session_of_filename filename = (filename, "0").
Proof.
  intros Hlen. unfold session_of_filename.
  destruct (Nat.leb_spec 6 (length (filename_parts filename))); [lia | done].
Qed.

(** A name written [p0_team_mode_p3_date_time.json], the segments free of
    underscores, has exactly these six parts. *)
Lemma filename_parts_six (p0 team mode p3 date time : string) :
  PyStr.mem "_" p0 = false → PyStr.mem "_" team = false → PyStr.mem "_" mode = false →
  PyStr.mem "_" p3 = false → PyStr.mem "_" date = false → PyStr.mem "_" time = false →
  filename_parts (p0 +:+ "_" +:+ team +:+ "_" +:+ mode +:+ "_" +:+ p3 +:+ "_"
                  +:+ date +:+ "_" +:+ time +:+ ".json")
  = [p0; team; mode; p3; date; time].
Proof.
  intros H0 H1 H2 H3 H4 H5. unfold filename_parts.
  rewrite <- !append_assoc. rewrite (drop_last_app _ ".json"). rewrite !append_assoc.
  change "_" with (String "_" EmptyString) at 1 2 3 4 5. rewrite !append_cons, !append_nil_l.
  rewrite !split_app_sep by done. by rewrite split_no_sep.
Qed.

(** C1 (amended). When the name of a summary file, its last five
    characters removed, splits on underscores into a first part, a team, a
    mode, a fourth part, a date part YYYY MM DD of 4+2+2 characters, a time
    part HH MM SS of 2+2+2 characters and any further parts, the label is
    "team [mode] - YYYY-MM-DD HH:MM:SS" and the key is the date part
    followed by the time part; so it is for every record the loader returns
    for such a file. The date and the time are the fifth and the sixth
    part, wherever the name ends. *)
Theorem C1_label_and_key_from_fifth_and_sixth_part {num : Type} `{PyNumber num}
    (filename p0 team mode p3 yyyy mm dd HH MM SS : string) (rest : list string) :
  filename_parts filename
  = p0 :: team :: mode :: p3 :: (yyyy +:+ mm +:+ dd) :: (HH +:+ MM +:+ SS) :: rest →
  String.length yyyy = 4 → String.length mm = 2 → String.length dd = 2 →
  String.length HH = 2 → String.length MM = 2 → String.length SS = 2 →
  session_of_filename filename
  = (team +:+ " [" +:+ mode +:+ "] - " +:+ yyyy +:+ "-" +:+ mm +:+ "-" +:+ dd
     +:+ " " +:+ HH +:+ ":" +:+ MM +:+ ":" +:+ SS,
     yyyy +:+ mm +:+ dd +:+ HH +:+ MM +:+ SS)
  ∧ ∀ (fs : filesystem num) (directory : string) (st : app num)
      (l : list (summary (pyval num))) (r : summary (pyval num)),
      (load_all_summaries fs directory st).1 = Returned (Some l) → r ∈ l →
      basename (filepath r) = filename →
      session_id r = team +:+ " [" +:+ mode +:+ "] - " +:+ yyyy +:+ "-" +:+ mm +:+ "-" +:+ dd
                     +:+ " " +:+ HH +:+ ":" +:+ MM +:+ ":" +:+ SS
      ∧ timestamp r = yyyy +:+ mm +:+ dd +:+ HH +:+ MM +:+ SS.
Proof.
  intros Hparts Hy Hm Hd Hh Hmi Hs.
  assert (session_of_filename filename
          = (team +:+ " [" +:+ mode +:+ "] - " +:+ yyyy +:+ "-" +:+ mm +:+ "-" +:+ dd
             +:+ " " +:+ HH +:+ ":" +:+ MM +:+ ":" +:+ SS,
             yyyy +:+ mm +:+ dd +:+ HH +:+ MM +:+ SS)) as Hpure.
  { rewrite (session_of_filename_fields _ _ _ _ _ _ _ _ Hparts).
    destruct (slice_fields yyyy mm dd 4 2 2 Hy Hm Hd) as (Ey & Em & Ed).
    destruct (slice_fields HH MM SS 2 2 2 Hh Hmi Hs) as (Eh & Emi & Es).
    cbn [Nat.add] in Em, Ed, Emi, Es.
    rewrite Ey, Em, Ed, Eh, Emi, Es. by rewrite !append_assoc. }
  split; [done|].
  intros fs directory st l r Hrun Hr Hname.
  pose proof (load_all_summaries_labels _ _ _ _ _ Hrun Hr) as Hlab.
  rewrite Hname, Hpure in Hlab. by injection Hlab.
Qed.

(** C2. When the name of a summary file, its last five characters
    removed, splits on underscores into fewer than six parts, the label is
    the file name itself, extension included, and the key is "0"; so it is
    for every record the loader returns for such a file. *)
Theorem C2_fallback_label_and_key {num : Type} `{PyNumber num} (filename : string) :
  length (filename_parts filename) < 6 →
  session_of_filename filename = (filename, "0")
  ∧ ∀ (fs : filesystem num) (directory : string) (st : app num)
      (l : list (summary (pyval num))) (r : summary (pyval num)),
      (load_all_summaries fs directory st).1 = Returned (Some l) → r ∈ l →
      basename (filepath r) = filename →
      session_id r = filename ∧ timestamp r = "0".
Proof.
  intros Hlen. pose proof (session_of_filename_short _ Hlen) as Hpure.
  split; [done|].
  intros fs directory st l r Hrun Hr Hname.
  pose proof (load_all_summaries_labels _ _ _ _ _ Hrun Hr) as Hlab.
  rewrite Hname, Hpure in Hlab. by injection Hlab.
Qed.

(** ** Order of the result *)

Lemma StronglySorted_lookup {A} (R : relation A) (l : list A) (i j : nat) (a b : A) :
  StronglySorted R l → l !! i = Some a → l !! j = Some b → i < j → R a b.
Proof.
  intros Hs. revert i j. induction Hs as [|x l Hs IH Hx]; intros i j Hi Hj Hij.
  - done.
  - destruct j as [|j]; [lia|]. destruct i as [|i]; simpl in *.
    + injection Hi as ->. rewrite Forall_forall in Hx.
      apply Hx. by eapply list_elem_of_lookup_2.
    + apply (IH i j); [done | done | lia].
Qed.

(** C3. The list the loader returns is sorted descending by timestamp
    key under string comparison, and a record whose key is 14 digits stands
    before every record whose key is the fallback "0". *)
Theorem C3_result_sorted_descending {num : Type} `{PyNumber num}
    (fs : filesystem num) (directory : string) (st : app num)
    (l : list (summary (pyval num))) :
  (load_all_summaries fs directory st).1 = Returned (Some l) →
  StronglySorted (descending timestamp) l
  ∧ ∀ (i j : nat) (r1 r2 : summary (pyval num)),
      l !! i = Some r1 → l !! j = Some r2 →
      String.length (timestamp r1) = 14 → PyStr.all_digits (timestamp r1) = true →
      timestamp r2 = "0" →
      i < j.
Proof.
  rewrite load_all_summaries_run.
  destruct (glob_summaries fs directory) as [|path files]; [done|].
  remember (path :: files) as enumerated. cbn [fst]. intros [= <-].
  pose proof (sort_key_reverse_sorted timestamp (loaded fs enumerated)) as Hsorted.
  split; [done|].
  intros i j r1 r2 Hi Hj Hlen Hdigits Hzero.
  assert (PyStr.lt "0" (timestamp r1)) as Hlt
    by (apply fallback_key_below; [lia | done]).
  unfold PyStr.lt in Hlt.
  destruct (Nat.lt_trichotomy i j) as [?|[->|Hji]]; [done | |].
  - rewrite Hi in Hj. injection Hj as ->. by rewrite Hzero in Hlen.
  - pose proof (StronglySorted_lookup _ _ _ _ _ _ Hsorted Hj Hi Hji) as Hle.
    unfold descending, PyStr.le in Hle. rewrite Hzero in Hle.
    rewrite string_ltb_leb, Hle in Hlt. done.
Qed.

(** ** Files that load, files that do not *)

Section LoaderFiles.
Context {num : Type} `{PyNumber num}.
Implicit Types (fs : filesystem num) (st : app num) (r : summary (pyval num)).

Lemma loaded_app fs (l1 l2 : list string) :
  loaded fs (l1 ++ l2) = loaded fs l1 ++ loaded fs l2.
Proof. apply omap_app. Qed.

Lemma load_errors_app fs (l1 l2 : list string) :
  load_errors fs (l1 ++ l2) = load_errors fs l1 ++ load_errors fs l2.
Proof. apply omap_app. Qed.

Lemma loaded_cons_raised fs (path : string) (files : list string) (e : exn) :
  summary_of_file fs path = Raised e → loaded fs (path :: files) = loaded fs files.
Proof. intros Hsum. unfold loaded. cbn [omap list_omap]. by rewrite Hsum. Qed.

Lemma load_errors_cons_raised fs (path : string) (files : list string) (e : exn) :
  summary_of_file fs path = Raised e →
  load_errors fs (path :: files)
  = ("Error processing file " +:+ path +:+ ": " +:+ exn_str e) :: load_errors fs files.
Proof. intros Hsum. unfold load_errors. cbn [omap list_omap]. by rewrite Hsum. Qed.

Lemma loaded_elem fs (files : list string) r :
  r ∈ loaded fs files ↔ filepath r ∈ files ∧ summary_of_file fs (filepath r) = Returned r.
Proof.
  unfold loaded. rewrite list_elem_of_omap. split.
  - intros (p & Hp & Hr). destruct (summary_of_file fs p) as [r'|] eqn:Hsum; [|done].
    injection Hr as ->.
    destruct (summary_of_file_returned _ _ _ Hsum) as (_ & _ & -> & _). done.
  - intros [Hin Hsum]. exists (filepath r). by rewrite Hsum.
Qed.

(** The records stand in the order of the enumeration. *)
Lemma loaded_filepaths fs (files : list string) :
  filepath <$> loaded fs files = List.filter (loads fs) files.
Proof.
  induction files as [|path files IH]; [done|].
  unfold loaded, loads in *. cbn [omap list_omap List.filter].
  destruct (summary_of_file fs path) as [r|e] eqn:Hsum; [|done].
  destruct (summary_of_file_returned _ _ _ Hsum) as (_ & _ & Hpath & _).
  cbn [fmap list_fmap]. by rewrite Hpath, <- IH.
Qed.

(** The loader sees the file system only through the files it reads. *)
Lemma summary_of_file_ext fs fs' (path : string) :
  json_load fs' path = json_load fs path →
  summary_of_file fs' path = summary_of_file fs path.
Proof. intros Heq. unfold summary_of_file. by rewrite Heq. Qed.

Lemma loaded_ext fs fs' (files : list string) :
  (∀ p, p ∈ files → json_load fs' p = json_load fs p) →
  loaded fs' files = loaded fs files.
Proof.
  induction files as [|path files IH]; intros Heq; [done|].
  unfold loaded in *. cbn [omap list_omap].
  rewrite (summary_of_file_ext fs fs' path) by (apply Heq; left).
  rewrite IH; [done|]. intros p Hp. apply Heq. by right.
Qed.

Lemma glob_summaries_none fs (directory : string) :
  (∀ names, listdir fs directory = Some names →
            Forall (λ n, fnmatch_summary n = false) names) →
  glob_summaries fs directory = [].
Proof.
  intros Hnone. unfold glob_summaries.
  destruct (listdir fs directory) as [names|]; [|done].
  specialize (Hnone names eq_refl).
  induction Hnone as [|n names Hn _ IH]; [done|].
  cbn [List.filter]. by rewrite Hn.
Qed.

End LoaderFiles.

(** C4. A summary file of the enumeration that reads as a JSON object
    always gets a record in the result; a metric whose key is absent from
    the object is the number 0 in that record, a metric that is present is
    kept. *)
Theorem C4_missing_metrics_default_to_zero {num : Type} `{PyNumber num}
    (fs : filesystem num) (directory : string) (st : app num)
    (path : string) (items : list (string * pyval num)) :
  path ∈ glob_summaries fs directory →
  json_load fs path = Returned (PDict items) →
  ∃ (l : list (summary (pyval num))) (r : summary (pyval num)),
    (load_all_summaries fs directory st).1 = Returned (Some l)
    ∧ r ∈ l ∧ filepath r = path
    ∧ (dict_lookup "total_dpav" items = None → total_dpav r = PNum num_zero)
    ∧ (dict_lookup "total_av" items = None → total_av r = PNum num_zero)
    ∧ (∀ v, dict_lookup "total_dpav" items = Some v → total_dpav r = v)
    ∧ (∀ v, dict_lookup "total_av" items = Some v → total_av r = v).
Proof.
  intros Hin Hload. rewrite load_all_summaries_run.
  destruct (glob_summaries fs directory) as [|p files] eqn:Hglob.
  { by apply elem_of_nil in Hin. }
  remember (p :: files) as enumerated.
  pose proof (summary_of_file_object _ _ _ Hload) as Hsum.
  match type of Hsum with
  | _ = Returned ?r => exists (sort_key_reverse timestamp (loaded fs enumerated)), r
  end.
  split; [done|]. split; [|split; [done|]].
  - rewrite sort_key_reverse_perm. apply loaded_elem. cbn [filepath]. by rewrite Hsum.
  - cbn [total_dpav total_av]. repeat split.
    + by intros ->.
    + by intros ->.
    + by intros v ->.
    + by intros v ->.
Qed.

(** C5. When reading or parsing one file of the enumeration raises, the
    loader still returns: its result is the sorted records of the other
    files, exactly as if the file were not there, no record carries that
    file's path, and the console holds one "Error processing file" line for
    it, between the lines of the files before and after it. *)
Theorem C5_failing_file_is_skipped_and_logged {num : Type} `{PyNumber num}
    (fs : filesystem num) (directory : string) (st : app num)
    (before after : list string) (path : string) (e : exn) :
  glob_summaries fs directory = before ++ path :: after →
  json_load fs path = Raised e →
  load_all_summaries fs directory st
  = (Returned (Some (sort_key_reverse timestamp (loaded fs (before ++ after)))),
     printed (("Found " +:+ pretty (length (before ++ path :: after))
               +:+ " summary files. Processing...")
              :: load_errors fs before
              ++ ("Error processing file " +:+ path +:+ ": " +:+ exn_str e)
              :: load_errors fs after) st)
  ∧ ∀ r : summary (pyval num),
      r ∈ sort_key_reverse timestamp (loaded fs (before ++ after)) → filepath r ≠ path.
Proof.
  intros Hglob Hload. pose proof (summary_of_file_raised _ _ _ Hload) as Hsum.
  split.
  - rewrite load_all_summaries_some by (rewrite Hglob; by destruct before).
    rewrite Hglob, !loaded_app, !load_errors_app.
    by rewrite (loaded_cons_raised _ _ _ _ Hsum), (load_errors_cons_raised _ _ _ _ Hsum).
  - intros r. rewrite sort_key_reverse_perm.
    intros [_ Hr]%loaded_elem Hpath. rewrite Hpath, Hsum in Hr. done.
Qed.

(** C8. When the directory cannot be listed or none of its entries
    matches SUMMARY_*.json, the loader prints one line and returns None
    without raising, and the window built from it shows the placeholder
    label and no comparison figure. *)
Theorem C8_no_summary_files {num : Type} `{PyNumber num}
    (sort_values : (summary num → num) → bool → list (summary num) → list (summary num))
    (draw_object_frame : list (summary (pyval num)) → outcome unit)
    (fs : filesystem num) (st : app num) :
  (∀ names, listdir fs "battle_summaries" = Some names →
            Forall (λ n, fnmatch_summary n = false) names) →
  load_all_summaries fs "battle_summaries" st
  = (Returned None, printed ["No summary files found in 'battle_summaries'."] st)
  ∧ init sort_values draw_object_frame fs new_app
    = (Returned tt,
       App None (Placeholder "No summary files found.") NoFigure []
           ["No summary files found in 'battle_summaries'."]).
Proof.
  intros Hnone%glob_summaries_none.
  assert (∀ st', load_all_summaries fs "battle_summaries" st'
                 = (Returned None,
                    printed ["No summary files found in 'battle_summaries'."] st')) as Hrun.
  { intros st'. by rewrite load_all_summaries_run, Hnone. }
  split; [apply Hrun|].
  unfold init. unfold mbind at 1, M_bind at 1. by rewrite Hrun.
Qed.

(** C10. The order of the result is fixed by the enumeration: the
    records are collected in enumeration order, records with the same key
    keep that order in the result, the result is the only descending
    arrangement that does so, and a second run that enumerates the same
    paths and reads the same documents returns the same list. *)
Theorem C10_result_order_is_stable {num : Type} `{PyNumber num}
    (fs : filesystem num) (directory : string) (st : app num)
    (l : list (summary (pyval num))) :
  (load_all_summaries fs directory st).1 = Returned (Some l) →
  filepath <$> loaded fs (glob_summaries fs directory)
  = List.filter (loads fs) (glob_summaries fs directory)
  ∧ (∀ k : string,
       filter (λ r, timestamp r = k) l
       = filter (λ r, timestamp r = k) (loaded fs (glob_summaries fs directory)))
  ∧ (∀ l' : list (summary (pyval num)),
       StronglySorted (descending timestamp) l' →
       (∀ k : string,
          filter (λ r, timestamp r = k) l'
          = filter (λ r, timestamp r = k) (loaded fs (glob_summaries fs directory))) →
       l' = l)
  ∧ (∀ (fs' : filesystem num) (st' : app num),
       glob_summaries fs' directory = glob_summaries fs directory →
       (∀ p, p ∈ glob_summaries fs directory → json_load fs' p = json_load fs p) →
       (load_all_summaries fs' directory st').1 = Returned (Some l)).
Proof.
  intros Hrun.
  assert (glob_summaries fs directory ≠ []
          ∧ l = sort_key_reverse timestamp (loaded fs (glob_summaries fs directory)))
    as [Hne ->].
  { rewrite load_all_summaries_run in Hrun.
    destruct (glob_summaries fs directory) as [|p files]; [done|].
    remember (p :: files) as enumerated. cbn [fst] in Hrun.
    injection Hrun as <-. split; [by subst|done]. }
  split; [apply loaded_filepaths|]. split; [|split].
  - intros k. apply sort_key_reverse_stable.
  - intros l' Hsorted Hclasses.
    apply (descending_stable_unique timestamp); [done | apply sort_key_reverse_sorted |].
    intros k. by rewrite Hclasses, sort_key_reverse_stable.
  - intros fs' st' Hglob Hsame.
    rewrite load_all_summaries_some by (by rewrite Hglob).
    cbn [fst]. by rewrite Hglob, (loaded_ext fs fs').
Qed.

(** ** The detail handler *)

Section Detail.
Context {num : Type} `{PyNumber num}.
Implicit Types (fs : filesystem num) (st : app num) (s : summary (pyval num)).

Lemma fill_after_open (title : string) (c : detail_content) st :
  fill_toplevel c (opened (Toplevel title EmptyFigure) st)
  = (Returned tt, opened (Toplevel title c) st).
Proof.
  unfold fill_toplevel, modify, opened. cbn [toplevels summaries_data session_panel
    canvas_comparison console]. by rewrite reverse_snoc, reverse_involutive.
Qed.

(** [show_detail_window], run: by what the read gives, then by what the
    document yields. *)
Lemma show_detail_window_run fs s st :
  show_detail_window fs s st
  = match json_load fs (filepath s) with
    | Raised e =>
        (Returned tt, printed ["Could not open detail file: " +:+ exn_str e] st)
    | Returned data =>
        match detail_series data with
        | Raised e =>
            (Raised e, opened (Toplevel ("Team Detail: " +:+ session_id s) EmptyFigure) st)
        | Returned c =>
            (Returned tt, opened (Toplevel ("Team Detail: " +:+ session_id s) c) st)
        end
    end.
Proof.
  unfold show_detail_window, try_except, lift, mbind, M_bind.
  destruct (json_load fs (filepath s)) as [data|e]; [|done].
  cbn [mret M_ret]. unfold open_toplevel, modify.
  fold (opened (Toplevel ("Team Detail: " +:+ session_id s) EmptyFigure) st).
  destruct (detail_series data) as [c|e]; [|done].
  apply fill_after_open.
Qed.

Lemma comprehension_raises {A B} (f : A → outcome B) (done_ : list A) (x : A)
    (rest : list A) (e : exn) :
  Forall (λ y, ∃ v, f y = Returned v) done_ → f x = Raised e →
  comprehension f (done_ ++ x :: rest) = Raised e.
Proof.
  intros Hdone Hx. induction Hdone as [|y done_ [v Hy] _ IH]; simpl.
  - by rewrite Hx.
  - rewrite Hy. unfold mbind, outcome_bind in *. by rewrite IH.
Qed.

(** A character entry without [total_damage], after entries that have
    it: the comprehension of line 191 raises [KeyError]. *)
Lemma detail_series_missing_damage (items : list (string * pyval num))
    (before after : list (string * pyval num)) (name : string)
    (entry : list (string * pyval num)) :
  dict_lookup "characters" items = Some (PDict (before ++ (name, PDict entry) :: after)) →
  Forall (λ kv, ∃ v, py_getitem kv.2 "total_damage" = Returned v) before →
  dict_lookup "total_damage" entry = None →
  detail_series (PDict items) = Raised (Exn "KeyError" "'total_damage'").
Proof.
  intros Hchars Hbefore Hmissing. unfold detail_series.
  cbn [py_get mbind outcome_bind]. rewrite Hchars.
  cbn [from_option id py_keys py_values mbind outcome_bind].
  rewrite (fmap_app snd), (fmap_cons snd).
  rewrite (comprehension_raises _ _ _ _ (Exn "KeyError" "'total_damage'")); [done| |].
  - apply Forall_fmap. by eapply Forall_impl.
  - cbn [snd py_getitem]. by rewrite Hmissing.
Qed.

End Detail.

(** Which exceptions the two [try] blocks cover. The loader's covers the
    read and the access to the document, so the loader never raises. The
    handler's covers the read only: what the read raises is printed, what
    lines 187-191 raise afterwards leaves the handler, the empty detail
    window already created. *)
Lemma exceptions_caught_and_uncaught {num : Type} `{PyNumber num}
    (fs : filesystem num) (directory : string) (s : summary (pyval num)) (st : app num) :
  (∃ res st', load_all_summaries fs directory st = (Returned res, st'))
  ∧ (∀ e, json_load fs (filepath s) = Raised e →
          show_detail_window fs s st
          = (Returned tt, printed ["Could not open detail file: " +:+ exn_str e] st))
  ∧ (∀ data e, json_load fs (filepath s) = Returned data →
               detail_series data = Raised e →
               show_detail_window fs s st
               = (Raised e,
                  opened (Toplevel ("Team Detail: " +:+ session_id s) EmptyFigure) st))
  ∧ (∀ items before name entry after,
       json_load fs (filepath s) = Returned (PDict items) →
       dict_lookup "characters" items
       = Some (PDict (before ++ (name, PDict entry) :: after)) →
       Forall (λ kv, ∃ v, py_getitem kv.2 "total_damage" = Returned v) before →
       dict_lookup "total_damage" entry = None →
       (show_detail_window fs s st).1 = Raised (Exn "KeyError" "'total_damage'")).
Proof.
  split; [apply load_all_summaries_returns|]. split; [|split].
  - intros e Hload. by rewrite show_detail_window_run, Hload.
  - intros data e Hload Hseries. by rewrite show_detail_window_run, Hload, Hseries.
  - intros items before name entry after Hload Hchars Hbefore Hmissing.
    rewrite show_detail_window_run, Hload.
    by rewrite (detail_series_missing_damage _ _ _ _ _ Hchars Hbefore Hmissing).
Qed.

(** C7. When the read or the JSON parse of the selected record's file
    raises, the handler returns without raising; it has printed one line,
    no detail window was added, and the record list, the session panel and
    the comparison canvas are what they were. *)
Theorem C7_failed_read_opens_no_window {num : Type} `{PyNumber num}
    (fs : filesystem num) (s : summary (pyval num)) (st : app num) (e : exn) :
  json_load fs (filepath s) = Raised e →
  (show_detail_window fs s st).1 = Returned tt
  ∧ console (show_detail_window fs s st).2
    = console st ++ ["Could not open detail file: " +:+ exn_str e]
  ∧ toplevels (show_detail_window fs s st).2 = toplevels st
  ∧ summaries_data (show_detail_window fs s st).2 = summaries_data st
  ∧ session_panel (show_detail_window fs s st).2 = session_panel st
  ∧ canvas_comparison (show_detail_window fs s st).2 = canvas_comparison st.
Proof.
  intros Hload. by rewrite show_detail_window_run, Hload.
Qed.

(** ** The overview *)

Section NumericOrder.
Context {num : Type} `{PyNumber num}.
Hypothesis num_leb_total : ∀ a b : num, num_leb a b = true ∨ num_leb b a = true.
Hypothesis num_leb_trans :
  ∀ a b c : num, num_leb a b = true → num_leb b c = true → num_leb a c = true.

Lemma num_leb_refl (a : num) : num_leb a a = true.
Proof. by destruct (num_leb_total a a). Qed.

Lemma num_max_cases (a b : num) :
  (num_max a b = a ∨ num_max a b = b)
  ∧ num_leb a (num_max a b) = true ∧ num_leb b (num_max a b) = true.
Proof.
  unfold num_max. destruct (num_leb a b) eqn:Hab.
  - split; [by right|]. split; [done | apply num_leb_refl].
  - split; [by left|]. split; [apply num_leb_refl|].
    destruct (num_leb_total a b) as [Hle|Hle]; [by rewrite Hle in Hab | done].
Qed.

Lemma fold_left_num_max (l : list num) (x : num) :
  is_maximum (fold_left num_max l x) (x :: l).
Proof.
  revert x. induction l as [|y l IH]; intros x; simpl.
  - split; [left|]. intros z ->%list_elem_of_singleton. apply num_leb_refl.
  - destruct (IH (num_max x y)) as [Hin Hub].
    destruct (num_max_cases x y) as (Hcase & Hx & Hy). split.
    + apply elem_of_cons in Hin as [->|Hin].
      * destruct Hcase as [->| ->]; [left | right; left].
      * by do 2 right.
    + intros z [->|[->|Hz]%elem_of_cons]%elem_of_cons.
      * eapply num_leb_trans; [exact Hx|]. apply Hub. left.
      * eapply num_leb_trans; [exact Hy|]. apply Hub. left.
      * apply Hub. by right.
Qed.

Lemma series_max_is_maximum (l : list num) :
  l ≠ [] → ∃ m, series_max l = Some m ∧ is_maximum m l.
Proof.
  destruct l as [|x l]; [done|]. intros _.
  eexists. split; [done|]. apply fold_left_num_max.
Qed.

Lemma ranked_trans (column : summary num → num) (ascending : bool) :
  Transitive (ranked column ascending).
Proof.
  intros a b c. unfold ranked. destruct ascending; intros Hab Hbc.
  - by eapply num_leb_trans.
  - by eapply num_leb_trans.
Qed.

(** The stable sort by a column is an admissible [sort_values]. *)
Lemma sort_values_stable_perm (column : summary num → num) (ascending : bool)
    (df : list (summary num)) :
  sort_values_stable column ascending df ≡ₚ df.
Proof. apply stable_sort_perm. Qed.

Lemma sort_values_stable_sorted (column : summary num → num) (ascending : bool)
    (df : list (summary num)) :
  StronglySorted (ranked column ascending) (sort_values_stable column ascending df).
Proof.
  apply Sorted_StronglySorted; [apply ranked_trans|].
  eapply Sorted_weaken; [|apply stable_sort_sorted].
  - intros a b. unfold not_after, ranked.
    destruct ascending; by intros ->%negb_false_iff.
  - intros x y. destruct ascending; intros Hxy%negb_true_iff; apply negb_false_iff.
    + destruct (num_leb_total (column x) (column y)) as [Hle|Hle];
        [done | by rewrite Hle in Hxy].
    + destruct (num_leb_total (column x) (column y)) as [Hle|Hle];
        [by rewrite Hle in Hxy | done].
Qed.

Section Overview.
Variable sort_values :
  (summary num → num) → bool → list (summary num) → list (summary num).
Hypothesis sort_values_perm :
  ∀ column ascending df, sort_values column ascending df ≡ₚ df.
Hypothesis sort_values_sorted :
  ∀ column ascending df,
    StronglySorted (ranked column ascending) (sort_values column ascending df).

Lemma zip_bars {A} (f : A → string) (g : A → num) (h : A → colour) (l : list A) :
  zip_with (λ lh c, Bar (fst lh) (snd lh) c) (zip (f <$> l) (g <$> l)) (h <$> l)
  = (λ r, Bar (f r) (g r) (h r)) <$> l.
Proof. induction l as [|x l IH]; [done|]. cbn. by f_equal. Qed.

(** One ranked chart of a non-empty frame. *)
Lemma ranked_axes_spec (column : summary num → num) (ascending : bool)
    (best other : colour) (df : list (summary num)) :
  df ≠ [] →
  ∃ (sorted : list (summary num)) (top : summary num) (m : num),
    sorted ≡ₚ df
    ∧ StronglySorted (ranked column ascending) sorted
    ∧ head sorted = Some top
    ∧ (∀ r, r ∈ df → ranked column ascending top r)
    ∧ bars (ranked_axes sort_values column ascending best other df)
      = (λ r, Bar (PyStr.replace_first " - " PyStr.newline (session_id r))
                  (column r)
                  (if decide (session_id r = session_id top) then best else other))
        <$> sorted
    ∧ bar_colour <$> head (bars (ranked_axes sort_values column ascending best other df))
      = Some best
    ∧ is_maximum m (column <$> df)
    ∧ ylim_top (ranked_axes sort_values column ascending best other df)
      = Some (num_mul m num_1_3).
Proof.
  intros Hne.
  pose proof (sort_values_perm column ascending df) as Hperm.
  pose proof (sort_values_sorted column ascending df) as Hsorted.
  unfold ranked_axes. cbn [bars ylim_top].
  destruct (sort_values column ascending df) as [|top sorted] eqn:Hsort.
  { by apply Permutation_nil_l in Hperm. }
  destruct (series_max_is_maximum (column <$> top :: sorted)) as (m & Hmax & Hm); [done|].
  exists (top :: sorted), top, m.
  split; [done|]. split; [done|]. split; [done|]. split; [|split; [|split; [|split]]].
  - intros r Hr. rewrite <- Hperm in Hr.
    apply StronglySorted_inv in Hsorted as [_ Htop]. rewrite Forall_forall in Htop.
    apply elem_of_cons in Hr as [->|Hr]; [|by apply Htop].
    unfold ranked. destruct ascending; apply num_leb_refl.
  - rewrite zip_bars. apply list_fmap_ext. intros _ r _. cbn [head fmap option_fmap option_map].
    f_equal. destruct (decide (Some (session_id r) = Some (session_id top))) as [Heq|Hneq],
      (decide (session_id r = session_id top)) as [Heq'|Hneq']; try done.
    + by injection Heq.
    + by rewrite Heq' in Hneq.
  - rewrite zip_bars. cbn [head fmap list_fmap option_fmap option_map bar_colour].
    by rewrite decide_True.
  - destruct Hm as [Hin Hub]. split.
    + by rewrite <- Hperm.
    + intros x Hx. apply Hub. by rewrite Hperm.
  - by rewrite Hmax.
Qed.

End Overview.
End NumericOrder.

Section OverviewRun.
Context {num : Type} `{PyNumber num}.
Variable sort_values :
  (summary num → num) → bool → list (summary num) → list (summary num).
Variable draw_object_frame : list (summary (pyval num)) → outcome unit.

(** Records with numeric metrics make a frame of the same rows. *)
Lemma to_frame_numeric (df : list (summary num)) :
  to_frame (numeric_record <$> df) = Some df.
Proof.
  unfold to_frame. apply mapM_Some, Forall2_fmap_l, Forall_Forall2_diag.
  apply Forall_forall. intros d _. unfold compose. by destruct d.
Qed.

(** [create_comparison_plots], run on records with numeric metrics. *)
Lemma create_comparison_plots_numeric (st : app num) (df : list (summary num)) :
  summaries_data st = Some (numeric_record <$> df) →
  create_comparison_plots sort_values draw_object_frame st
  = (Returned tt,
     App (summaries_data st) (session_panel st)
         (Drawn (comparison_axes sort_values df).1 (comparison_axes sort_values df).2)
         (toplevels st) (console st)).
Proof.
  intros Hdata. unfold create_comparison_plots, gets, mbind, M_bind.
  rewrite Hdata. cbn [default from_option id]. rewrite to_frame_numeric.
  destruct (comparison_axes sort_values df). unfold set_canvas, modify.
  by rewrite Hdata.
Qed.

End OverviewRun.


(** ** The specification's example, and the claims at concrete inputs *)

Example session_of_filename_wellformed :
  session_of_filename "SUMMARY_Acheron_MoC_v1_20240115_143022.json"
  = ("Acheron [MoC] - 2024-01-15 14:30:22", "20240115143022").
Proof. reflexivity. Qed.

Example session_of_filename_fallback :
  session_of_filename "SUMMARY_weird.json" = ("SUMMARY_weird.json", "0").
Proof. reflexivity. Qed.

Example example_glob :
  glob_summaries example_fs "battle_summaries"
  = ["battle_summaries/SUMMARY_weird.json";
     "battle_summaries/SUMMARY_broken_MoC_v1_20240116_090000.json";
     "battle_summaries/SUMMARY_Acheron_MoC_v1_20240115_143022.json"].
Proof. reflexivity. Qed.

Example example_load :
  load_all_summaries example_fs "battle_summaries" new_app
  = (Returned (Some example_result),
     App None NotBuilt NoFigure []
         ["Found 3 summary files. Processing...";
          "Error processing file battle_summaries/SUMMARY_broken_MoC_v1_20240116_090000.json: Expecting value: line 1 column 1 (char 0)"]).
Proof. vm_compute. reflexivity. Qed.

Lemma Qle_bool_total (a b : Q) : Qle_bool a b = true ∨ Qle_bool b a = true.
Proof.
  rewrite !Qle_bool_iff. destruct (Qlt_le_dec a b) as [Hlt|Hle]; [left | by right].
  by apply Qlt_le_weak.
Qed.

Lemma Qle_bool_trans (a b c : Q) :
  Qle_bool a b = true → Qle_bool b c = true → Qle_bool a c = true.
Proof. rewrite !Qle_bool_iff. apply Qle_trans. Qed.

(** C1, as stated, fails on a name of seven parts: the date and the time
    are read from the fifth and sixth part, not from the last two. *)
Lemma C1_seven_parts_counterexample :
  fnmatch_summary "SUMMARY_A_B_C_D_20240115_143022.json" = true
  ∧ filename_parts "SUMMARY_A_B_C_D_20240115_143022.json"
    = ["SUMMARY"; "A"; "B"; "C"; "D"; "20240115"; "143022"]
  ∧ session_of_filename "SUMMARY_A_B_C_D_20240115_143022.json"
    = ("A [B] - D-- 20:24:01", "D20240115")
  ∧ session_of_filename "SUMMARY_A_B_C_D_20240115_143022.json"
    ≠ ("A [B] - 2024-01-15 14:30:22", "20240115143022").
Proof. repeat split; try reflexivity. discriminate. Qed.

Lemma C1_witness :
  session_of_filename "SUMMARY_Acheron_MoC_v1_20240115_143022.json"
  = ("Acheron [MoC] - 2024-01-15 14:30:22", "20240115143022")
  ∧ (session_id example_record = "Acheron [MoC] - 2024-01-15 14:30:22"
     ∧ timestamp example_record = "20240115143022").
Proof.
  pose proof (C1_label_and_key_from_fifth_and_sixth_part (num := Q)
                "SUMMARY_Acheron_MoC_v1_20240115_143022.json"
                "SUMMARY" "Acheron" "MoC" "v1" "2024" "01" "15" "14" "30" "22" []
                eq_refl eq_refl eq_refl eq_refl eq_refl eq_refl eq_refl) as [Hpure Hrec].
  split; [exact Hpure|].
  apply (Hrec example_fs "battle_summaries" new_app example_result).
  - vm_compute. reflexivity.
  - apply list_elem_of_here.
  - reflexivity.
Defined.

Lemma C2_witness :
  session_of_filename "SUMMARY_weird.json" = ("SUMMARY_weird.json", "0")
  ∧ (session_id example_weird_record = "SUMMARY_weird.json"
     ∧ timestamp example_weird_record = "0").
Proof.
  assert (length (filename_parts "SUMMARY_weird.json") < 6) as Hlen
    by (vm_compute; lia).
  pose proof (C2_fallback_label_and_key (num := Q) "SUMMARY_weird.json" Hlen)
    as [Hpure Hrec].
  split; [exact Hpure|].
  apply (Hrec example_fs "battle_summaries" new_app example_result).
  - vm_compute. reflexivity.
  - apply list_elem_of_further, list_elem_of_here.
  - reflexivity.
Defined.

Lemma C3_witness :
  StronglySorted (descending timestamp) example_result
  ∧ ∀ (i j : nat) (r1 r2 : summary (pyval Q)),
      example_result !! i = Some r1 → example_result !! j = Some r2 →
      String.length (timestamp r1) = 14 → PyStr.all_digits (timestamp r1) = true →
      timestamp r2 = "0" →
      i < j.
Proof.
  apply (C3_result_sorted_descending example_fs "battle_summaries" new_app).
  vm_compute. reflexivity.
Defined.

Lemma C4_witness :
  ∃ (l : list (summary (pyval Q))) (r : summary (pyval Q)),
    (load_all_summaries example_fs "battle_summaries" new_app).1 = Returned (Some l)
    ∧ r ∈ l ∧ filepath r = "battle_summaries/SUMMARY_weird.json"
    ∧ total_dpav r = PNum 0%Q.
Proof.
  destruct (C4_missing_metrics_default_to_zero example_fs "battle_summaries" new_app
              "battle_summaries/SUMMARY_weird.json" [("total_av", PNum (250 # 1)%Q)])
    as (l & r & Hrun & Hin & Hpath & Hdpav & _).
  - rewrite example_glob. apply list_elem_of_here.
  - reflexivity.
  - exists l, r. repeat split; try assumption. apply Hdpav. reflexivity.
Defined.

Lemma C5_witness :
  load_all_summaries example_fs "battle_summaries" new_app
  = (Returned (Some example_result),
     App None NotBuilt NoFigure []
         ["Found 3 summary files. Processing...";
          "Error processing file battle_summaries/SUMMARY_broken_MoC_v1_20240116_090000.json: Expecting value: line 1 column 1 (char 0)"])
  ∧ ∀ r : summary (pyval Q),
      r ∈ example_result →
      filepath r ≠ "battle_summaries/SUMMARY_broken_MoC_v1_20240116_090000.json".
Proof.
  pose proof (C5_failing_file_is_skipped_and_logged example_fs "battle_summaries" new_app
                ["battle_summaries/SUMMARY_weird.json"]
                ["battle_summaries/SUMMARY_Acheron_MoC_v1_20240115_143022.json"]
                "battle_summaries/SUMMARY_broken_MoC_v1_20240116_090000.json"
                (Exn "JSONDecodeError" "Expecting value: line 1 column 1 (char 0)")
                eq_refl eq_refl) as [Hrun Hrec].
  split.
  - rewrite Hrun. vm_compute. reflexivity.
  - intros r Hr. apply Hrec. exact Hr.
Defined.

(** C6 (defect of the code). Every exception of a detail selection
    should be caught, as the loader catches every exception of a file: on
    a document that is not an object the loader prints the error and goes
    on. The handler does not: on the example document, where the entry of
    one character has no total_damage, the read succeeds and the handler
    raises KeyError, leaving an empty detail window. *)
Theorem C6_missing_damage_escapes_handler :
  example_record ∈ example_result
  ∧ (load_all_summaries example_fs "battle_summaries" new_app).1
    = Returned (Some example_result)
  ∧ json_load example_fs (filepath example_record) = Returned (PDict example_items)
  ∧ show_detail_window example_fs example_record new_app
    = (Raised (Exn "KeyError" "'total_damage'"),
       App None NotBuilt NoFigure
           [Toplevel "Team Detail: Acheron [MoC] - 2024-01-15 14:30:22" EmptyFigure] [])
  ∧ load_all_summaries sessions_fs "battle_summaries" new_app
    = (Returned (Some [session_b; session_a]),
       App None NotBuilt NoFigure []
           ["Found 3 summary files. Processing...";
            "Error processing file battle_summaries/SUMMARY_list_MoC_v1_20240117_000000.json: 'list' object has no attribute 'get'"]).
Proof.
  split; [apply list_elem_of_here|]. repeat split; vm_compute; reflexivity.
Qed.

Lemma C7_witness :
  (show_detail_window example_fs example_gone_record new_app).1 = Returned tt
  ∧ console (show_detail_window example_fs example_gone_record new_app).2
    = ["Could not open detail file: [Errno 2] No such file or directory: 'battle_summaries/SUMMARY_Gone_MoC_v1_20240101_000000.json'"]
  ∧ toplevels (show_detail_window example_fs example_gone_record new_app).2 = []
  ∧ summaries_data (show_detail_window example_fs example_gone_record new_app).2 = None
  ∧ session_panel (show_detail_window example_fs example_gone_record new_app).2 = NotBuilt
  ∧ canvas_comparison (show_detail_window example_fs example_gone_record new_app).2
    = NoFigure.
Proof.
  apply (C7_failed_read_opens_no_window example_fs example_gone_record new_app
           (Exn "FileNotFoundError"
                "[Errno 2] No such file or directory: 'battle_summaries/SUMMARY_Gone_MoC_v1_20240101_000000.json'")).
  reflexivity.
Defined.

Lemma C8_witness :
  load_all_summaries empty_fs "battle_summaries" new_app
  = (Returned None,
     App None NotBuilt NoFigure [] ["No summary files found in 'battle_summaries'."])
  ∧ init sort_values_stable objects_raise empty_fs new_app
    = (Returned tt,
       App None (Placeholder "No summary files found.") NoFigure []
           ["No summary files found in 'battle_summaries'."]).
Proof.
  apply (C8_no_summary_files sort_values_stable objects_raise empty_fs new_app).
  intros names Hnames. discriminate Hnames.
Defined.

Example ties_load :
  (load_all_summaries ties_fs "battle_summaries" new_app).1 = Returned (Some ties_result)
  ∧ loaded ties_fs (glob_summaries ties_fs "battle_summaries")
    = [tie_second_run; session_b; tie_first_run]
  ∧ filter (λ r, timestamp r = "20240115143022") ties_result
    = [tie_second_run; tie_first_run].
Proof. repeat split; vm_compute; reflexivity. Qed.

Lemma C10_witness :
  filepath <$> loaded ties_fs (glob_summaries ties_fs "battle_summaries")
  = List.filter (loads ties_fs) (glob_summaries ties_fs "battle_summaries")
  ∧ (∀ k : string,
       filter (λ r, timestamp r = k) ties_result
       = filter (λ r, timestamp r = k)
                (loaded ties_fs (glob_summaries ties_fs "battle_summaries")))
  ∧ (∀ l' : list (summary (pyval Q)),
       StronglySorted (descending timestamp) l' →
       (∀ k : string,
          filter (λ r, timestamp r = k) l'
          = filter (λ r, timestamp r = k)
                   (loaded ties_fs (glob_summaries ties_fs "battle_summaries"))) →
       l' = ties_result)
  ∧ (∀ (fs' : filesystem Q) (st' : app Q),
       glob_summaries fs' "battle_summaries" = glob_summaries ties_fs "battle_summaries" →
       (∀ p, p ∈ glob_summaries ties_fs "battle_summaries" →
             json_load fs' p = json_load ties_fs p) →
       (load_all_summaries fs' "battle_summaries" st').1 = Returned (Some ties_result)).
Proof.
  apply (C10_result_order_is_stable ties_fs "battle_summaries" new_app).
  vm_compute. reflexivity.
Defined.

Example example_charts :
  comparison_axes sort_values_stable example_frame
  = (Axes [Bar ("A [MoC]" +:+ String "010" "2024-01-15 14:30:22") (250 # 1)%Q gold;
           Bar ("B [PF]" +:+ String "010" "2024-01-16 10:15:00") (175 # 1)%Q skyblue;
           Bar ("A [MoC]" +:+ String "010" "2024-01-15 14:30:22") (100 # 1)%Q gold]
          (Some (3250 # 10)%Q)
          [(0, (250 # 1)%Q); (1, (175 # 1)%Q); (2, (100 # 1)%Q)],
     Axes [Bar ("A [MoC]" +:+ String "010" "2024-01-15 14:30:22") (280 # 1)%Q limegreen;
           Bar ("A [MoC]" +:+ String "010" "2024-01-15 14:30:22") (300 # 1)%Q limegreen;
           Bar ("B [PF]" +:+ String "010" "2024-01-16 10:15:00") (310 # 1)%Q lightcoral]
          (Some (4030 # 10)%Q)
          [(0, (280 # 1)%Q); (1, (300 # 1)%Q); (2, (310 # 1)%Q)]).
Proof. vm_compute. reflexivity. Qed.

Example example_overview :
  create_comparison_plots sort_values_stable objects_raise
    (App (Some (numeric_record <$> example_frame)) NotBuilt Blank [] [])
  = (Returned tt,
     App (Some (numeric_record <$> example_frame)) NotBuilt
         (Drawn (comparison_axes sort_values_stable example_frame).1
                (comparison_axes sort_values_stable example_frame).2)
         [] []).
Proof. vm_compute. reflexivity. Qed.


(** * Further properties of the code *)

(** ** Splitting file names *)

Lemma split_length (sep : ascii) (s : string) :
  length (PyStr.split sep s) = S (PyStr.count sep s).
Proof.
  induction s as [|c s IH]; [done|]. cbn [PyStr.split PyStr.count].
  destruct (Ascii.eqb c sep); cbn [length Nat.add].
  - by rewrite IH.
  - destruct (PyStr.split sep s) as [|p ps]; cbn [length] in *; [done | exact IH].
Qed.

Lemma concat_cons_head (sep : string) (c : ascii) (p : string) (ps : list string) :
  String.concat sep (String c p :: ps) = String c (String.concat sep (p :: ps)).
Proof. by destruct ps. Qed.

(** [sep.join(s.split(sep)) == s] *)
Lemma concat_split (sep : ascii) (s : string) :
  String.concat (String sep EmptyString) (PyStr.split sep s) = s.
Proof.
  induction s as [|c s IH]; [done|]. cbn [PyStr.split].
  destruct (Ascii.eqb_spec c sep) as [->|Hne].
  - pose proof (split_length sep s) as Hlen.
    destruct (PyStr.split sep s) as [|p ps]; [done|].
    cbn [String.concat]. rewrite append_nil_l, append_cons, append_nil_l. by rewrite <- IH.
  - destruct (PyStr.split sep s) as [|p ps].
    + pose proof (split_length sep s) as Hlen. by rewrite <- IH.
    + by rewrite concat_cons_head, IH.
Qed.

(** [(a + sep + b).split(sep) == a.split(sep) + b.split(sep)] *)
Lemma split_app (sep : ascii) (a b : string) :
  PyStr.split sep (a +:+ String sep b) = PyStr.split sep a ++ PyStr.split sep b.
Proof.
  induction a as [|c a IH]; [rewrite append_nil_l | rewrite append_cons]; cbn [PyStr.split].
  - by rewrite Ascii.eqb_refl.
  - destruct (Ascii.eqb c sep); rewrite IH; [done|].
    pose proof (split_length sep a) as Hlen.
    by destruct (PyStr.split sep a).
Qed.

(** X1. The file name, its last five characters removed, has one part
    more than it has underscores. With at least five underscores the label
    is "part2 [part3] - " followed by the fifth part cut 4-2-2 with hyphens,
    a space, and the sixth part cut 2-2-2 with colons, and the key is the
    fifth part followed by the sixth; with fewer the label is the file name
    itself and the key is "0". *)
Theorem X1_parts_count_underscores (filename : string) :
  length (filename_parts filename)
  = S (PyStr.count "_" (PyStr.drop_last 5 filename))
  ∧ (PyStr.count "_" (PyStr.drop_last 5 filename) < 5 →
     session_of_filename filename = (filename, "0"))
  ∧ (5 ≤ PyStr.count "_" (PyStr.drop_last 5 filename) →
     session_of_filename filename
     = (nth 1 (filename_parts filename) EmptyString +:+ " ["
        +:+ nth 2 (filename_parts filename) EmptyString +:+ "] - "
        +:+ (PyStr.slice 0 4 (nth 4 (filename_parts filename) EmptyString) +:+ "-"
             +:+ PyStr.slice 4 6 (nth 4 (filename_parts filename) EmptyString) +:+ "-"
             +:+ PyStr.slice 6 8 (nth 4 (filename_parts filename) EmptyString))
        +:+ " "
        +:+ (PyStr.slice 0 2 (nth 5 (filename_parts filename) EmptyString) +:+ ":"
             +:+ PyStr.slice 2 4 (nth 5 (filename_parts filename) EmptyString) +:+ ":"
             +:+ PyStr.slice 4 6 (nth 5 (filename_parts filename) EmptyString)),
        nth 4 (filename_parts filename) EmptyString
        +:+ nth 5 (filename_parts filename) EmptyString)).
Proof.
  pose proof (split_length "_" (PyStr.drop_last 5 filename)) as Hlen.
  fold (filename_parts filename) in Hlen. split; [done|]. split.
  - intros Hfew. apply session_of_filename_short. lia.
  - intros Hmany. unfold session_of_filename.
    destruct (Nat.leb_spec 6 (length (filename_parts filename))); [done | lia].
Qed.

(** X2. Joining the parts of a name with underscores gives the name
    back: the split loses nothing. *)
Theorem X2_parts_rejoin (filename : string) :
  String.concat "_" (filename_parts filename) = PyStr.drop_last 5 filename.
Proof. apply (concat_split "_"). Qed.

(** X3. A file named p0_team_mode_p3_YYYYMMDD_HHMMSS.json, the six
    segments free of underscores, the date of 4+2+2 and the time of 2+2+2
    characters, gets the label "team [mode] - YYYY-MM-DD HH:MM:SS" and the
    key YYYYMMDDHHMMSS. *)
Theorem X3_six_segment_name (p0 team mode p3 yyyy mm dd HH MM SS : string) :
  PyStr.mem "_" p0 = false → PyStr.mem "_" team = false → PyStr.mem "_" mode = false →
  PyStr.mem "_" p3 = false →
  PyStr.mem "_" (yyyy +:+ mm +:+ dd) = false → PyStr.mem "_" (HH +:+ MM +:+ SS) = false →
  String.length yyyy = 4 → String.length mm = 2 → String.length dd = 2 →
  String.length HH = 2 → String.length MM = 2 → String.length SS = 2 →
  session_of_filename (p0 +:+ "_" +:+ team +:+ "_" +:+ mode +:+ "_" +:+ p3 +:+ "_"
                       +:+ (yyyy +:+ mm +:+ dd) +:+ "_" +:+ (HH +:+ MM +:+ SS) +:+ ".json")
  = (team +:+ " [" +:+ mode +:+ "] - " +:+ yyyy +:+ "-" +:+ mm +:+ "-" +:+ dd
     +:+ " " +:+ HH +:+ ":" +:+ MM +:+ ":" +:+ SS,
     yyyy +:+ mm +:+ dd +:+ HH +:+ MM +:+ SS).
Proof.
  intros H0 H1 H2 H3 H4 H5 Hy Hm Hd Hh Hmi Hs.
  rewrite (session_of_filename_fields _ p0 team mode p3 (yyyy +:+ mm +:+ dd)
             (HH +:+ MM +:+ SS) []) by (by apply filename_parts_six).
  destruct (slice_fields yyyy mm dd 4 2 2 Hy Hm Hd) as (Ey & Em & Ed).
  destruct (slice_fields HH MM SS 2 2 2 Hh Hmi Hs) as (Eh & Emi & Es).
  cbn [Nat.add] in Em, Ed, Emi, Es.
  rewrite Ey, Em, Ed, Eh, Emi, Es. by rewrite !append_assoc.
Qed.

(** X4. Label and key are read from the second, third, fifth and sixth
    part only: two names that agree on these four parts get the same label
    and the same key, whatever their first and fourth part and whatever
    follows the sixth. *)
Theorem X4_label_ignores_other_parts
    (f1 f2 p0 p0' team mode p3 p3' date time : string) (rest rest' : list string) :
  filename_parts f1 = p0 :: team :: mode :: p3 :: date :: time :: rest →
  filename_parts f2 = p0' :: team :: mode :: p3' :: date :: time :: rest' →
  session_of_filename f1 = session_of_filename f2.
Proof.
  intros Hf1 Hf2.
  by rewrite (session_of_filename_fields _ _ _ _ _ _ _ _ Hf1),
             (session_of_filename_fields _ _ _ _ _ _ _ _ Hf2).
Qed.

(** ** Keys of digits sort by their number *)

Lemma int_of_digits_bound (s : string) :
  PyStr.all_digits s = true →
  (PyStr.int_of_digits s < 10 ^ N.of_nat (String.length s))%N.
Proof.
  induction s as [|c s IH]; [done|]. cbn [PyStr.all_digits PyStr.int_of_digits String.length].
  intros [Hc Hs]%andb_prop. specialize (IH Hs).
  unfold PyStr.is_digit in Hc. apply andb_prop in Hc as [Hlo Hhi].
  apply N.leb_le in Hlo, Hhi. unfold PyStr.digit.
  rewrite Nat2N.inj_succ, N.pow_succ_r'.
  assert (N_of_ascii c - 48 ≤ 9)%N by lia. nia.
Qed.

Lemma string_ltb_digits (a b : string) :
  String.length a = String.length b →
  PyStr.all_digits a = true → PyStr.all_digits b = true →
  String.ltb a b = true ↔ (PyStr.int_of_digits a < PyStr.int_of_digits b)%N.
Proof.
  revert b. induction a as [|x a IH]; intros [|y b]; try done.
  cbn [String.length PyStr.all_digits PyStr.int_of_digits].
  intros [= Hlen] [Hx Ha]%andb_prop [Hy Hb]%andb_prop.
  pose proof (int_of_digits_bound a Ha) as Hba.
  pose proof (int_of_digits_bound b Hb) as Hbb.
  rewrite <- Hlen in Hbb.
  unfold PyStr.is_digit in Hx, Hy.
  apply andb_prop in Hx as [Hx _]. apply andb_prop in Hy as [Hy _].
  apply N.leb_le in Hx, Hy.
  specialize (IH b Hlen Ha Hb). rewrite <- Hlen.
  unfold String.ltb in *. cbn [String.compare]. unfold Ascii.compare, PyStr.digit.
  destruct (N.compare_spec (N_of_ascii x) (N_of_ascii y)) as [Heq|Hlt|Hgt].
  - rewrite Heq, IH. lia.
  - split; [intros _|done].
    assert (N_of_ascii x - 48 + 1 ≤ N_of_ascii y - 48)%N by lia. nia.
  - split; [done|]. intros Hlt.
    assert (N_of_ascii y - 48 + 1 ≤ N_of_ascii x - 48)%N by lia. nia.
Qed.

Lemma load_all_summaries_result {num : Type} `{PyNumber num}
    (fs : filesystem num) (directory : string) (st : app num)
    (l : list (summary (pyval num))) :
  (load_all_summaries fs directory st).1 = Returned (Some l) →
  glob_summaries fs directory ≠ []
  ∧ l = sort_key_reverse timestamp (loaded fs (glob_summaries fs directory)).
Proof.
  rewrite load_all_summaries_run.
  destruct (glob_summaries fs directory) as [|p files]; [done|].
  remember (p :: files) as enumerated. cbn [fst]. intros [= <-].
  split; [by subst | done].
Qed.

Lemma load_all_summaries_sorted {num : Type} `{PyNumber num}
    (fs : filesystem num) (directory : string) (st : app num)
    (l : list (summary (pyval num))) :
  (load_all_summaries fs directory st).1 = Returned (Some l) →
  StronglySorted (descending timestamp) l.
Proof.
  intros [_ ->]%load_all_summaries_result. apply sort_key_reverse_sorted.
Qed.

(** X5. Among the records the loader returns, one whose key is the
    greater number stands first, whenever the two keys are digit strings of
    one length (as two YYYYMMDDHHMMSS keys are): the newest session comes
    first. *)
Theorem X5_newest_first {num : Type} `{PyNumber num}
    (fs : filesystem num) (directory : string) (st : app num)
    (l : list (summary (pyval num))) (i j : nat) (r1 r2 : summary (pyval num)) :
  (load_all_summaries fs directory st).1 = Returned (Some l) →
  l !! i = Some r1 → l !! j = Some r2 →
  String.length (timestamp r1) = String.length (timestamp r2) →
  PyStr.all_digits (timestamp r1) = true → PyStr.all_digits (timestamp r2) = true →
  (PyStr.int_of_digits (timestamp r2) < PyStr.int_of_digits (timestamp r1))%N →
  i < j.
Proof.
  intros Hrun Hi Hj Hlen Hd1 Hd2 Hlt.
  pose proof (load_all_summaries_sorted fs directory st l Hrun) as Hsorted.
  apply (string_ltb_digits _ _ (eq_sym Hlen) Hd2 Hd1) in Hlt.
  destruct (Nat.lt_trichotomy i j) as [?|[->|Hji]]; [done | |].
  - rewrite Hi in Hj. injection Hj as ->. by rewrite string_ltb_irrefl in Hlt.
  - pose proof (StronglySorted_lookup _ _ _ _ _ _ Hsorted Hj Hi Hji) as Hle.
    unfold descending, PyStr.le in Hle. rewrite string_ltb_leb, Hle in Hlt. done.
Qed.

(** ** Every matching file is accounted for *)

Section LoaderAccounts.
Context {num : Type} `{PyNumber num}.
Implicit Types (fs : filesystem num) (st : app num) (r : summary (pyval num)).

Lemma loaded_errors_length fs (files : list string) :
  length (loaded fs files) + length (load_errors fs files) = length files.
Proof.
  induction files as [|path files IH]; [done|].
  unfold loaded, load_errors in *. cbn [omap list_omap].
  destruct (summary_of_file fs path); cbn [length]; lia.
Qed.

Lemma loaded_none fs (files : list string) :
  Forall (λ p, loads fs p = false) files →
  loaded fs files = []
  ∧ load_errors fs files
    = (λ p, "Error processing file " +:+ p +:+ ": "
            +:+ match summary_of_file fs p with
                | Returned _ => EmptyString
                | Raised e => exn_str e
                end) <$> files.
Proof.
  induction 1 as [|path files Hp _ [IHl IHe]]; [done|].
  unfold loaded, load_errors, loads in *. cbn [omap list_omap fmap list_fmap].
  destruct (summary_of_file fs path); [done|]. by rewrite IHl, IHe.
Qed.

(** What a document that is not an object does to [data.get]. *)
Lemma summary_of_file_not_object fs (path : string) (data : pyval num) :
  json_load fs path = Returned data →
  (∀ items, data ≠ PDict items) →
  summary_of_file fs path
  = Raised (Exn "AttributeError"
                ("'" +:+ type_name data +:+ "' object has no attribute 'get'")).
Proof.
  intros Hload Hnot. unfold summary_of_file.
  destruct (session_of_filename (basename path)). rewrite Hload.
  destruct data as [| | | | |items]; try done. by destruct (Hnot items).
Qed.

End LoaderAccounts.

(** X6. When at least one file matches, the loader returns a list that
    is a rearrangement of the records of the files that load; it prints the
    line "Found N summary files. Processing..." with N the number of
    matching files, then one error line per file that does not load, in
    enumeration order; and records and error lines together are as many as
    the matching files. The rest of the state is untouched. *)
Theorem X6_every_file_accounted_for {num : Type} `{PyNumber num}
    (fs : filesystem num) (directory : string) (st : app num) :
  glob_summaries fs directory ≠ [] →
  ∃ l : list (summary (pyval num)),
    load_all_summaries fs directory st
    = (Returned (Some l),
       printed (("Found " +:+ pretty (length (glob_summaries fs directory))
                 +:+ " summary files. Processing...")
                :: load_errors fs (glob_summaries fs directory)) st)
    ∧ l ≡ₚ loaded fs (glob_summaries fs directory)
    ∧ filepath <$> loaded fs (glob_summaries fs directory)
      = List.filter (loads fs) (glob_summaries fs directory)
    ∧ length l + length (load_errors fs (glob_summaries fs directory))
      = length (glob_summaries fs directory).
Proof.
  intros Hne. eexists. split; [by apply load_all_summaries_some|].
  split; [apply sort_key_reverse_perm|]. split; [apply loaded_filepaths|].
  rewrite sort_key_reverse_perm. apply loaded_errors_length.
Qed.

(** X7. A matching file whose JSON is not an object (a list, a string,
    a number, true, false or null) is skipped like a file that does not
    parse: [data.get] raises AttributeError, the loader prints the error
    line with that message and returns the records of the other files. *)
Theorem X7_non_object_document_is_skipped {num : Type} `{PyNumber num}
    (fs : filesystem num) (directory : string) (st : app num)
    (before after : list string) (path : string) (data : pyval num) :
  glob_summaries fs directory = before ++ path :: after →
  json_load fs path = Returned data →
  (∀ items, data ≠ PDict items) →
  load_all_summaries fs directory st
  = (Returned (Some (sort_key_reverse timestamp (loaded fs (before ++ after)))),
     printed (("Found " +:+ pretty (length (before ++ path :: after))
               +:+ " summary files. Processing...")
              :: load_errors fs before
              ++ ("Error processing file " +:+ path +:+ ": '" +:+ type_name data
                  +:+ "' object has no attribute 'get'")
              :: load_errors fs after) st)
  ∧ ∀ r : summary (pyval num),
      r ∈ sort_key_reverse timestamp (loaded fs (before ++ after)) → filepath r ≠ path.
Proof.
  intros Hglob Hload Hnot.
  pose proof (summary_of_file_not_object _ _ _ Hload Hnot) as Hsum. split.
  - rewrite load_all_summaries_some by (rewrite Hglob; by destruct before).
    rewrite Hglob, !loaded_app, !load_errors_app.
    by rewrite (loaded_cons_raised _ _ _ _ Hsum), (load_errors_cons_raised _ _ _ _ Hsum).
  - intros r. rewrite sort_key_reverse_perm.
    intros [_ Hr]%loaded_elem Hpath. rewrite Hpath, Hsum in Hr. done.
Qed.

(** X8. When files match but none of them loads, the loader returns
    the empty list, not None, after the "Found" line and one error line per
    file; the window built from it shows the placeholder label and no
    comparison figure, as when no file matches. *)
Theorem X8_all_files_fail {num : Type} `{PyNumber num}
    (sort_values : (summary num → num) → bool → list (summary num) → list (summary num))
    (draw_object_frame : list (summary (pyval num)) → outcome unit)
    (fs : filesystem num) (st : app num) :
  glob_summaries fs "battle_summaries" ≠ [] →
  Forall (λ p, loads fs p = false) (glob_summaries fs "battle_summaries") →
  load_all_summaries fs "battle_summaries" st
  = (Returned (Some []),
     printed (("Found " +:+ pretty (length (glob_summaries fs "battle_summaries"))
               +:+ " summary files. Processing...")
              :: load_errors fs (glob_summaries fs "battle_summaries")) st)
  ∧ length (load_errors fs (glob_summaries fs "battle_summaries"))
    = length (glob_summaries fs "battle_summaries")
  ∧ init sort_values draw_object_frame fs new_app
    = (Returned tt,
       App (Some []) (Placeholder "No summary files found.") NoFigure []
           (("Found " +:+ pretty (length (glob_summaries fs "battle_summaries"))
             +:+ " summary files. Processing...")
            :: load_errors fs (glob_summaries fs "battle_summaries"))).
Proof.
  intros Hne Hfail. destruct (loaded_none _ _ Hfail) as [Hnone Herr].
  assert (∀ st', load_all_summaries fs "battle_summaries" st'
                 = (Returned (Some []),
                    printed (("Found "
                              +:+ pretty (length (glob_summaries fs "battle_summaries"))
                              +:+ " summary files. Processing...")
                             :: load_errors fs (glob_summaries fs "battle_summaries")) st'))
    as Hrun.
  { intros st'. rewrite load_all_summaries_some by done. by rewrite Hnone. }
  split; [apply Hrun|]. split.
  - rewrite Herr. apply length_fmap.
  - unfold init. unfold mbind at 1, M_bind at 1. by rewrite Hrun.
Qed.

(** ** The session links *)

(** X9. On a non-empty record list [create_widgets] returns with the
    session panel holding one link per record, in the order of the
    records, and the comparison canvas created and empty: the link of
    record number i sits in row i/2, column i mod 2 (two links per row),
    its text is "View Detail - " followed by the record's file name, and
    it opens that record. No two links share a cell. The record list, the
    detail windows and the console are untouched. *)
Theorem X9_one_link_per_record {num : Type} `{PyNumber num}
    (st : app num) (rows : list (summary (pyval num))) :
  summaries_data st = Some rows → rows ≠ [] →
  ∃ links : list link,
    create_widgets st
    = (Returned tt, App (Some rows) (Links links) Blank (toplevels st) (console st))
    ∧ length links = length rows
    ∧ link_target <$> links = rows
    ∧ (∀ (i : nat) (s : summary (pyval num)),
         rows !! i = Some s →
         links !! i
         = Some (Link (i / 2) (i mod 2) ("View Detail - " +:+ basename (filepath s)) s))
    ∧ (∀ (i j : nat) (a b : link),
         links !! i = Some a → links !! j = Some b →
         link_row a = link_row b → link_col a = link_col b → i = j)
    ∧ (∀ (i : nat) (a : link), links !! i = Some a → link_col a < 2).
Proof.
  intros Hdata Hne. exists (session_links rows). split.
  { unfold create_widgets, gets, set_session_panel, set_canvas, modify, mbind, M_bind.
    rewrite Hdata. destruct rows as [|r rows]; [done|].
    cbn [truthy default from_option id summaries_data session_panel canvas_comparison
         toplevels console]. by rewrite Hdata. }
  unfold session_links. split; [apply length_imap|]. split; [|split; [|split]].
  - apply list_eq. intros i. rewrite list_lookup_fmap, list_lookup_imap.
    by destruct (rows !! i).
  - intros i s Hi. by rewrite list_lookup_imap, Hi.
  - intros i j a b. rewrite !list_lookup_imap.
    destruct (rows !! i) as [si|]; [|done]. destruct (rows !! j) as [sj|]; [|done].
    cbn [fmap option_fmap option_map]. intros [= <-] [= <-].
    change (i / 2 = j / 2 → i mod 2 = j mod 2 → i = j). intros Hrow Hcol.
    pose proof (Nat.div_mod_eq i 2) as Ei. pose proof (Nat.div_mod_eq j 2) as Ej.
    rewrite Hrow, Hcol in Ei. by rewrite Ei, <- Ej.
  - intros i a. rewrite list_lookup_imap.
    destruct (rows !! i) as [si|]; [|done]. intros [= <-].
    change (i mod 2 < 2). apply Nat.mod_upper_bound. lia.
Qed.

Section InitRun.
Context {num : Type} `{PyNumber num}.
Variable sort_values :
  (summary num → num) → bool → list (summary num) → list (summary num).
Variable draw_object_frame : list (summary (pyval num)) → outcome unit.

(** [__init__] when the loader returned at least one record: the list
    and the links are in place before the charts are drawn, and stay when
    drawing raises. *)
Lemma init_with_records (fs : filesystem num) :
  loaded fs (glob_summaries fs "battle_summaries") ≠ [] →
  init sort_values draw_object_frame fs new_app
  = (match to_frame (sort_key_reverse timestamp
                       (loaded fs (glob_summaries fs "battle_summaries"))) with
     | Some _ => Returned tt
     | None => draw_object_frame
                 (sort_key_reverse timestamp
                    (loaded fs (glob_summaries fs "battle_summaries")))
     end,
     App (Some (sort_key_reverse timestamp (loaded fs (glob_summaries fs "battle_summaries"))))
         (Links (session_links
                   (sort_key_reverse timestamp
                      (loaded fs (glob_summaries fs "battle_summaries")))))
         (match to_frame (sort_key_reverse timestamp
                            (loaded fs (glob_summaries fs "battle_summaries"))) with
          | Some df => Drawn (comparison_axes sort_values df).1
                             (comparison_axes sort_values df).2
          | None =>
              match draw_object_frame
                      (sort_key_reverse timestamp
                         (loaded fs (glob_summaries fs "battle_summaries"))) with
              | Returned _ => NotModelled
              | Raised _ => Blank
              end
          end)
         []
         (("Found " +:+ pretty (length (glob_summaries fs "battle_summaries"))
           +:+ " summary files. Processing...")
          :: load_errors fs (glob_summaries fs "battle_summaries"))).
Proof.
  intros Hne.
  assert (glob_summaries fs "battle_summaries" ≠ []) as Hglob.
  { intros Heq. by rewrite Heq in Hne. }
  assert (∃ r rs, sort_key_reverse timestamp
                    (loaded fs (glob_summaries fs "battle_summaries")) = r :: rs)
    as (r & rs & Hsort).
  { destruct (sort_key_reverse timestamp _) as [|r rs] eqn:Hs; [|by eauto].
    destruct Hne. apply Permutation_nil_r. rewrite <- Hs.
    by rewrite sort_key_reverse_perm. }
  unfold init. unfold mbind at 1, M_bind at 1.
  rewrite load_all_summaries_some by done. rewrite Hsort.
  unfold create_comparison_plots, create_widgets, set_summaries_data, set_session_panel,
    set_canvas, gets, modify, mbind, M_bind, printed, new_app.
  cbn [truthy summaries_data session_panel canvas_comparison toplevels console default
       from_option id].
  unfold lift. destruct (to_frame (r :: rs)) as [df|].
  - by destruct (comparison_axes sort_values df).
  - by destruct (draw_object_frame (r :: rs)) as [[]|e].
Qed.

End InitRun.


(** X18. [__init__] has no handler around the overview: when a metric
    of the loaded records is not a number and drawing the charts raises,
    the exception leaves [__init__]. By then the record list and the links
    are in place; the comparison canvas is created and shows nothing. *)
Theorem X18_overview_error_leaves_init {num : Type} `{PyNumber num}
    (sort_values : (summary num → num) → bool → list (summary num) → list (summary num))
    (draw_object_frame : list (summary (pyval num)) → outcome unit)
    (fs : filesystem num) (e : exn) :
  loaded fs (glob_summaries fs "battle_summaries") ≠ [] →
  to_frame (sort_key_reverse timestamp (loaded fs (glob_summaries fs "battle_summaries")))
  = None →
  draw_object_frame
    (sort_key_reverse timestamp (loaded fs (glob_summaries fs "battle_summaries")))
  = Raised e →
  init sort_values draw_object_frame fs new_app
  = (Raised e,
     App (Some (sort_key_reverse timestamp
                  (loaded fs (glob_summaries fs "battle_summaries"))))
         (Links (session_links
                   (sort_key_reverse timestamp
                      (loaded fs (glob_summaries fs "battle_summaries")))))
         Blank []
         (("Found " +:+ pretty (length (glob_summaries fs "battle_summaries"))
           +:+ " summary files. Processing...")
          :: load_errors fs (glob_summaries fs "battle_summaries"))).
Proof.
  intros Hne Hframe Hdraw.
  rewrite (init_with_records sort_values draw_object_frame fs Hne).
  by rewrite Hframe, Hdraw.
Qed.

(** ** The detail handler, further *)

Section DetailFurther.
Context {num : Type} `{PyNumber num}.
Implicit Types (fs : filesystem num) (st : app num) (s : summary (pyval num)).

Lemma comprehension_returns {A B} (f : A → outcome B) (l : list A) (ys : list B) :
  Forall2 (λ x y, f x = Returned y) l ys → comprehension f l = Returned ys.
Proof.
  induction 1 as [|x y l ys Hxy _ IH]; [done|].
  cbn [comprehension]. rewrite Hxy. unfold mbind, outcome_bind in *. by rewrite IH.
Qed.

Lemma detail_series_not_object (data : pyval num) :
  (∀ items, data ≠ PDict items) →
  detail_series data
  = Raised (Exn "AttributeError"
                ("'" +:+ type_name data +:+ "' object has no attribute 'get'")).
Proof.
  intros Hnot. destruct data as [| | | | |items]; try done. by destruct (Hnot items).
Qed.

Lemma detail_series_characters_not_object (items : list (string * pyval num))
    (characters : pyval num) :
  dict_lookup "characters" items = Some characters →
  (∀ entries, characters ≠ PDict entries) →
  detail_series (PDict items)
  = Raised (Exn "AttributeError"
                ("'" +:+ type_name characters +:+ "' object has no attribute 'keys'")).
Proof.
  intros Hchars Hnot. unfold detail_series. cbn [py_get mbind outcome_bind].
  rewrite Hchars. cbn [from_option id].
  destruct characters as [| | | | |entries]; try done. by destruct (Hnot entries).
Qed.

End DetailFurther.

(** X11. Whatever the file holds, the detail handler leaves the record
    list, the session panel and the comparison canvas as they were and
    closes no window. When the read raises it adds no window and prints one
    line; when the read succeeds it adds exactly one window, titled
    "Team Detail: " followed by the record's label, and prints nothing,
    whether or not it raises afterwards. *)
Theorem X11_handler_touches_only_its_window {num : Type} `{PyNumber num}
    (fs : filesystem num) (s : summary (pyval num)) (st : app num) :
  summaries_data (show_detail_window fs s st).2 = summaries_data st
  ∧ session_panel (show_detail_window fs s st).2 = session_panel st
  ∧ canvas_comparison (show_detail_window fs s st).2 = canvas_comparison st
  ∧ match json_load fs (filepath s) with
    | Raised e =>
        toplevels (show_detail_window fs s st).2 = toplevels st
        ∧ console (show_detail_window fs s st).2
          = console st ++ ["Could not open detail file: " +:+ exn_str e]
    | Returned _ =>
        (∃ content,
           toplevels (show_detail_window fs s st).2
           = toplevels st ++ [Toplevel ("Team Detail: " +:+ session_id s) content])
        ∧ console (show_detail_window fs s st).2 = console st
    end.
Proof.
  rewrite show_detail_window_run.
  destruct (json_load fs (filepath s)) as [data|e]; [|done].
  destruct (detail_series data) as [content|e]; cbn [snd]; repeat split; by eexists.
Qed.

(** X12. From a document that is an object, lines 187-191 take the
    team name, "Unknown" when the key is absent, and one name and one damage
    per character, in the order of the document, when every entry of
    characters is an object with a total_damage; an absent characters key
    gives two empty series. *)
Theorem X12_series_of_a_document {num : Type} `{PyNumber num}
    (items : list (string * pyval num)) :
  (dict_lookup "characters" items = None →
   detail_series (PDict items)
   = Returned (DetailCharts (default (PStr "Unknown") (dict_lookup "team_name" items))
                            [] []))
  ∧ (∀ (entries : list (string * pyval num)) (damages : list (pyval num)),
       dict_lookup "characters" items = Some (PDict entries) →
       Forall2 (λ kv v, ∃ fields, kv.2 = PDict fields
                                  ∧ dict_lookup "total_damage" fields = Some v)
               entries damages →
       detail_series (PDict items)
       = Returned (DetailCharts (default (PStr "Unknown") (dict_lookup "team_name" items))
                                (fst <$> entries) damages)
       ∧ length (fst <$> entries) = length damages).
Proof.
  split.
  - intros Hnone. unfold detail_series. cbn [py_get mbind outcome_bind]. by rewrite Hnone.
  - intros entries damages Hchars Hall. split.
    + unfold detail_series. cbn [py_get mbind outcome_bind]. rewrite Hchars.
      cbn [from_option id py_keys py_values mbind outcome_bind].
      rewrite (comprehension_returns _ _ damages); [done|].
      apply Forall2_fmap_l. eapply Forall2_impl; [exact Hall|].
      intros kv v (fields & Hkv & Hv). unfold compose. rewrite Hkv. cbn [py_getitem].
      by rewrite Hv.
    + rewrite length_fmap. by eapply Forall2_length.
Qed.

(** X13. A detail file that parses to something other than an object,
    or whose characters value is not an object, makes the handler raise
    AttributeError after the read: the exception leaves the handler and the
    window just created stays empty. *)
Theorem X13_malformed_document_raises {num : Type} `{PyNumber num}
    (fs : filesystem num) (s : summary (pyval num)) (st : app num) (data : pyval num) :
  json_load fs (filepath s) = Returned data →
  ((∀ items, data ≠ PDict items) →
   show_detail_window fs s st
   = (Raised (Exn "AttributeError"
                  ("'" +:+ type_name data +:+ "' object has no attribute 'get'")),
      opened (Toplevel ("Team Detail: " +:+ session_id s) EmptyFigure) st))
  ∧ (∀ items characters,
       data = PDict items → dict_lookup "characters" items = Some characters →
       (∀ entries, characters ≠ PDict entries) →
       show_detail_window fs s st
       = (Raised (Exn "AttributeError"
                      ("'" +:+ type_name characters
                       +:+ "' object has no attribute 'keys'")),
          opened (Toplevel ("Team Detail: " +:+ session_id s) EmptyFigure) st)).
Proof.
  intros Hload. split.
  - intros Hnot. by rewrite show_detail_window_run, Hload, detail_series_not_object.
  - intros items characters -> Hchars Hnot.
    by rewrite show_detail_window_run, Hload,
         (detail_series_characters_not_object _ _ Hchars Hnot).
Qed.

(** ** The charts, further *)

(** X14. In a ranked chart of a non-empty frame every bar carries its
    annotation: when the sort returns a rearrangement of the frame there
    are as many bars as records and as many annotations as bars, and
    annotation number i stands at position i, at the height of bar
    number i. *)
Theorem X14_bars_and_annotations {num : Type} `{PyNumber num}
    (sort_values : (summary num → num) → bool → list (summary num) → list (summary num))
    (column : summary num → num) (ascending : bool) (best other : colour)
    (df : list (summary num)) :
  df ≠ [] →
  sort_values column ascending df ≡ₚ df →
  length (bars (ranked_axes sort_values column ascending best other df)) = length df
  ∧ length (texts (ranked_axes sort_values column ascending best other df)) = length df
  ∧ ∀ i : nat,
      texts (ranked_axes sort_values column ascending best other df) !! i
      = (λ b, (i, bar_height b))
        <$> bars (ranked_axes sort_values column ascending best other df) !! i.
Proof.
  intros _ Hperm. unfold ranked_axes. cbn [bars texts]. rewrite zip_bars.
  rewrite length_fmap, length_imap, length_fmap, Hperm.
  split; [done|]. split; [done|].
  intros i. rewrite list_lookup_imap, !list_lookup_fmap.
  by destruct (sort_values column ascending df !! i).
Qed.

Lemma mem_app (c : ascii) (a b : string) :
  PyStr.mem c (a +:+ b) = PyStr.mem c a || PyStr.mem c b.
Proof.
  induction a as [|x a IH]; [done|]. rewrite append_cons. cbn [PyStr.mem].
  by rewrite IH, orb_assoc.
Qed.

Lemma substring_0_all (s : string) (m : nat) :
  String.length s ≤ m → String.substring 0 m s = s.
Proof.
  revert m. induction s as [|c s IH]; intros m Hm; [by destruct m|].
  destruct m as [|m]; cbn [String.length] in Hm; [lia|].
  cbn [String.substring]. rewrite IH; [done | lia].
Qed.

(** Without a hyphen there is no [" - "] to replace. *)
Lemma replace_first_no_hyphen (new s : string) :
  PyStr.mem "-" s = false → PyStr.replace_first " - " new s = s.
Proof.
  induction s as [|c s IH]; [done|]. cbn [PyStr.mem]. intros [Hc Hs]%orb_false_iff.
  cbn [PyStr.replace_first String.prefix].
  destruct (ascii_dec " " c) as [<-|_]; [|by rewrite IH].
  destruct s as [|d s]; [done|]. specialize (IH Hs). cbn [PyStr.mem] in Hs.
  apply orb_false_iff in Hs as [Hd _]. cbn [String.prefix].
  destruct (ascii_dec "-" d) as [<-|_]; [done|]. by rewrite IH.
Qed.

(** The first [" - "] after a text without hyphen is the one replaced. *)
Lemma replace_first_after_hyphen_free (new a b : string) :
  PyStr.mem "-" a = false →
  PyStr.replace_first " - " new (a +:+ " - " +:+ b) = a +:+ new +:+ b.
Proof.
  intros Ha.
  assert (PyStr.replace_first " - " new (" - " +:+ b) = new +:+ b) as Hbase.
  { change (" - " +:+ b) with (String " " (String "-" (String " " b))).
    cbn [PyStr.replace_first String.prefix].
    destruct (ascii_dec " " " ") as [_|Hne]; [|done].
    destruct (ascii_dec "-" "-") as [_|Hne]; [|done].
    replace (String.prefix EmptyString b) with true by (by destruct b).
    cbn [String.length String.substring]. rewrite substring_0_all; [done | lia]. }
  assert (String.prefix "- " (" - " +:+ b) = false) as Hpre.
  { change (" - " +:+ b) with (String " " (String "-" (String " " b))).
    cbn [String.prefix]. by destruct (ascii_dec "-" " "). }
  remember (" - " +:+ b) as t eqn:Ht. clear Ht.
  induction a as [|c a IH]; [by rewrite !append_nil_l|].
  cbn [PyStr.mem] in Ha. apply orb_false_iff in Ha as [Hc Ha]. specialize (IH Ha).
  rewrite (append_cons c a t), (append_cons c a (new +:+ b)).
  cbn [PyStr.replace_first String.prefix].
  destruct (ascii_dec " " c) as [<-|_]; [|by rewrite IH].
  destruct a as [|d a].
  - rewrite append_nil_l in *. by rewrite Hpre, IH.
  - rewrite (append_cons d a t). cbn [String.prefix].
    cbn [PyStr.mem] in Ha. apply orb_false_iff in Ha as [Hd _].
    destruct (ascii_dec "-" d) as [<-|_]; [done|].
    rewrite <- (append_cons d a t). by rewrite IH.
Qed.

(** X15. In a ranked chart the bar of row number i of the sorted frame
    has the height of that row and, as its label, the row's session label
    with the first " - " turned into a line break. For a session label
    "team [mode] - rest" whose team and mode hold no hyphen the break falls
    between "[mode]" and the rest; a session label without any hyphen is
    the bar's label unchanged. *)
Theorem X15_bar_label_break {num : Type} `{PyNumber num}
    (sort_values : (summary num → num) → bool → list (summary num) → list (summary num))
    (column : summary num → num) (ascending : bool) (best other : colour)
    (df : list (summary num)) (i : nat) (r : summary num) :
  df ≠ [] →
  sort_values column ascending df !! i = Some r →
  ∃ b : bar num,
    bars (ranked_axes sort_values column ascending best other df) !! i = Some b
    ∧ bar_height b = column r
    ∧ bar_label b = PyStr.replace_first " - " PyStr.newline (session_id r)
    ∧ (∀ team mode rest : string,
         session_id r = team +:+ " [" +:+ mode +:+ "] - " +:+ rest →
         PyStr.mem "-" team = false → PyStr.mem "-" mode = false →
         bar_label b = team +:+ " [" +:+ mode +:+ "]" +:+ PyStr.newline +:+ rest)
    ∧ (PyStr.mem "-" (session_id r) = false → bar_label b = session_id r).
Proof.
  intros _ Hi. unfold ranked_axes. cbn [bars]. rewrite zip_bars.
  rewrite list_lookup_fmap, Hi. cbn [fmap option_fmap option_map].
  eexists. split; [done|]. cbn [bar_height bar_label].
  split; [done|]. split; [done|]. split.
  - intros team mode rest -> Hteam Hmode.
    pose proof (replace_first_after_hyphen_free PyStr.newline
                  (team +:+ " [" +:+ mode +:+ "]") rest) as Hrep.
    rewrite !append_assoc in Hrep. apply Hrep.
    rewrite !mem_app, Hteam, Hmode. done.
  - apply replace_first_no_hyphen.
Qed.

(** ** Which files are loaded, and under which name *)

Lemma prefix_app (p r : string) : String.prefix p (p +:+ r) = true.
Proof.
  induction p as [|c p IH]; [by destruct r|]. rewrite append_cons. cbn [String.prefix].
  by destruct (ascii_dec c c).
Qed.

Lemma prefix_inv (p s : string) : String.prefix p s = true → ∃ r, s = p +:+ r.
Proof.
  revert s. induction p as [|c p IH]; intros s; [by exists s|].
  destruct s as [|d s]; [done|]. cbn [String.prefix].
  destruct (ascii_dec c d) as [<-|_]; [|done].
  intros [r ->]%IH. by exists r.
Qed.

Lemma substring_split (s : string) (n : nat) :
  n ≤ String.length s →
  s = String.substring 0 n s +:+ String.substring n (String.length s - n) s.
Proof.
  revert n. induction s as [|c s IH]; intros n Hn.
  - by destruct n.
  - destruct n as [|n]; cbn [String.length] in *.
    + rewrite Nat.sub_0_r. cbn [String.substring]. rewrite append_nil_l.
      by rewrite substring_0_length.
    + cbn [String.substring Nat.sub]. rewrite append_cons. f_equal. apply IH. lia.
Qed.

Lemma endswith_app (a p : string) : PyStr.endswith p (a +:+ p) = true.
Proof.
  unfold PyStr.endswith. rewrite length_append.
  replace (String.length a + String.length p - String.length p)
    with (String.length a) by lia.
  rewrite substring_length_app, substring_0_length, String.eqb_refl.
  apply andb_true_intro. split; [apply Nat.leb_le; lia | done].
Qed.

Lemma endswith_inv (p s : string) : PyStr.endswith p s = true → ∃ a, s = a +:+ p.
Proof.
  unfold PyStr.endswith. intros [Hlen Heq]%andb_prop.
  apply Nat.leb_le in Hlen. apply String.eqb_eq in Heq.
  exists (String.substring 0 (String.length s - String.length p) s).
  pose proof (substring_split s (String.length s - String.length p)) as Hs.
  replace (String.length s - (String.length s - String.length p))
    with (String.length p) in Hs by lia.
  rewrite Heq in Hs. apply Hs. lia.
Qed.

(** X16. The files the loader reads are those whose name is "SUMMARY_",
    then anything (possibly nothing), then ".json": the pattern matches a
    name exactly when the name can be written that way. *)
Theorem X16_pattern_matches (name : string) :
  fnmatch_summary name = true ↔ ∃ middle, name = "SUMMARY_" +:+ middle +:+ ".json".
Proof.
  unfold fnmatch_summary, PyStr.startswith. split.
  - intros [[Hpre Hsuf]%andb_prop Hlen]%andb_prop.
    apply Nat.leb_le in Hlen.
    apply prefix_inv in Hpre as [r ->]. apply endswith_inv in Hsuf as [a Heq].
    rewrite Heq, length_append in Hlen. cbn [String.length] in Hlen.
    do 8 (destruct a as [|? a]; [cbn [String.length] in Hlen; lia|];
          rewrite ?append_cons, ?append_nil_l in Heq; injection Heq as <- Heq).
    rewrite ?append_nil_l in Heq. exists a. by rewrite Heq.
  - intros [middle ->]. rewrite prefix_app. rewrite <- append_assoc, endswith_app.
    rewrite !length_append. cbn [String.length andb]. apply Nat.leb_le. lia.
Qed.

Lemma not_mem_not_startswith (c : ascii) (s : string) :
  PyStr.mem c s = false → String.prefix (String c EmptyString) s = false.
Proof.
  destruct s as [|d s]; [done|]. cbn [PyStr.mem String.prefix].
  intros [Hd _]%orb_false_iff. destruct (ascii_dec c d) as [<-|_]; [|done].
  by rewrite Ascii.eqb_refl in Hd.
Qed.

Lemma basename_after_slash (a name : string) :
  PyStr.mem "/" name = false → basename (a +:+ String "/" name) = name.
Proof.
  intros Hname. unfold basename. rewrite split_app, (split_no_sep _ _ Hname).
  apply last_last.
Qed.

(** [os.path.basename(os.path.join(d, name)) == name] for a directory
    entry, which holds no slash. *)
Lemma basename_path_join (directory name : string) :
  PyStr.mem "/" name = false → basename (path_join directory name) = name.
Proof.
  intros Hname. unfold path_join, PyStr.startswith.
  rewrite (not_mem_not_startswith _ _ Hname).
  destruct (String.eqb_spec directory EmptyString) as [->|_].
  - cbn [orb]. rewrite append_nil_l. unfold basename. by rewrite split_no_sep.
  - cbn [orb]. destruct (PyStr.endswith "/" directory) eqn:Hend.
    + apply endswith_inv in Hend as [a ->]. rewrite append_assoc.
      by apply basename_after_slash.
    + by apply basename_after_slash.
Qed.

(** X17. Every record the loader returns belongs to one entry of the
    directory: an entry that matches the pattern, whose path is the
    directory joined with the entry, and whose name alone, not the
    directory, gives the record its label and key. Entries hold no slash. *)
Theorem X17_record_of_a_directory_entry {num : Type} `{PyNumber num}
    (fs : filesystem num) (directory : string) (st : app num)
    (l : list (summary (pyval num))) (r : summary (pyval num)) :
  (∀ names, listdir fs directory = Some names →
            Forall (λ n, PyStr.mem "/" n = false) names) →
  (load_all_summaries fs directory st).1 = Returned (Some l) → r ∈ l →
  ∃ (names : list string) (name : string),
    listdir fs directory = Some names ∧ name ∈ names
    ∧ fnmatch_summary name = true
    ∧ filepath r = path_join directory name
    ∧ basename (filepath r) = name
    ∧ (session_id r, timestamp r) = session_of_filename name.
Proof.
  intros Hslash Hrun Hr.
  destruct (load_all_summaries_records _ _ _ _ _ Hrun Hr) as [Hin _].
  pose proof (load_all_summaries_labels _ _ _ _ _ Hrun Hr) as Hlab.
  unfold glob_summaries in Hin.
  destruct (listdir fs directory) as [names|] eqn:Hlist; [|by apply elem_of_nil in Hin].
  apply list_elem_of_fmap in Hin as (name & Hpath & Hname).
  apply list_elem_of_In, filter_In in Hname as [Hname Hmatch].
  apply list_elem_of_In in Hname.
  specialize (Hslash names eq_refl). rewrite Forall_forall in Hslash.
  pose proof (basename_path_join directory name (Hslash name Hname)) as Hbase.
  exists names, name. rewrite Hpath in *. rewrite Hbase in *. done.
Qed.

(** ** The further properties at concrete inputs *)

Example sessions_load :
  load_all_summaries sessions_fs "battle_summaries" new_app
  = (Returned (Some [session_b; session_a]),
     App None NotBuilt NoFigure []
         ["Found 3 summary files. Processing...";
          "Error processing file battle_summaries/SUMMARY_list_MoC_v1_20240117_000000.json: 'list' object has no attribute 'get'"]).
Proof. vm_compute. reflexivity. Qed.

Lemma X1_witness :
  session_of_filename "SUMMARY_weird.json" = ("SUMMARY_weird.json", "0")
  ∧ session_of_filename "SUMMARY_Acheron_MoC_v1_20240115_143022.json"
    = ("Acheron [MoC] - 2024-01-15 14:30:22", "20240115143022").
Proof.
  split.
  - apply (X1_parts_count_underscores "SUMMARY_weird.json"). vm_compute. lia.
  - destruct (X1_parts_count_underscores "SUMMARY_Acheron_MoC_v1_20240115_143022.json")
      as (_ & _ & Hmany).
    rewrite Hmany; [reflexivity|]. vm_compute. lia.
Defined.

Lemma X3_witness :
  session_of_filename "SUMMARY_Acheron_MoC_v1_20240115_143022.json"
  = ("Acheron [MoC] - 2024-01-15 14:30:22", "20240115143022").
Proof.
  apply (X3_six_segment_name "SUMMARY" "Acheron" "MoC" "v1" "2024" "01" "15" "14" "30" "22");
    reflexivity.
Defined.

Lemma X4_witness :
  session_of_filename "SUMMARY_A_MoC_v1_20240115_143022.json"
  = session_of_filename "OTHER_A_MoC_v2_20240115_143022_retry.json".
Proof.
  apply (X4_label_ignores_other_parts _ _ "SUMMARY" "OTHER" "A" "MoC" "v1" "v2"
           "20240115" "143022" [] ["retry"]); reflexivity.
Defined.

Lemma X5_witness : 0 < 1.
Proof.
  apply (X5_newest_first sessions_fs "battle_summaries" new_app
           [session_b; session_a] 0 1 session_b session_a);
    vm_compute; reflexivity.
Defined.

Lemma X6_witness :
  ∃ l : list (summary (pyval Q)),
    load_all_summaries example_fs "battle_summaries" new_app
    = (Returned (Some l),
       printed (("Found " +:+ pretty (length (glob_summaries example_fs "battle_summaries"))
                 +:+ " summary files. Processing...")
                :: load_errors example_fs (glob_summaries example_fs "battle_summaries"))
               new_app)
    ∧ l ≡ₚ loaded example_fs (glob_summaries example_fs "battle_summaries")
    ∧ filepath <$> loaded example_fs (glob_summaries example_fs "battle_summaries")
      = List.filter (loads example_fs) (glob_summaries example_fs "battle_summaries")
    ∧ length l + length (load_errors example_fs (glob_summaries example_fs "battle_summaries"))
      = length (glob_summaries example_fs "battle_summaries").
Proof.
  apply (X6_every_file_accounted_for example_fs "battle_summaries" new_app).
  rewrite example_glob. discriminate.
Defined.

Lemma X7_witness :
  (load_all_summaries sessions_fs "battle_summaries" new_app).1
  = Returned (Some [session_b; session_a])
  ∧ console (load_all_summaries sessions_fs "battle_summaries" new_app).2
    = ["Found 3 summary files. Processing...";
       "Error processing file battle_summaries/SUMMARY_list_MoC_v1_20240117_000000.json: 'list' object has no attribute 'get'"].
Proof.
  destruct (X7_non_object_document_is_skipped sessions_fs "battle_summaries" new_app
              ["battle_summaries/SUMMARY_A_MoC_v1_20240115_143022.json"]
              ["battle_summaries/SUMMARY_B_PF_v1_20240116_101500.json"]
              "battle_summaries/SUMMARY_list_MoC_v1_20240117_000000.json"
              (PList [PNum (1 # 1)%Q])) as [Hrun _].
  - reflexivity.
  - reflexivity.
  - intros items. discriminate.
  - rewrite Hrun. split; vm_compute; reflexivity.
Defined.

Lemma X8_witness :
  load_all_summaries broken_fs "battle_summaries" new_app
  = (Returned (Some []),
     App None NotBuilt NoFigure []
         ["Found 1 summary files. Processing...";
          "Error processing file battle_summaries/SUMMARY_x.json: [Errno 13] Permission denied: 'battle_summaries/SUMMARY_x.json'"])
  ∧ init sort_values_stable objects_raise broken_fs new_app
    = (Returned tt,
       App (Some []) (Placeholder "No summary files found.") NoFigure []
           ["Found 1 summary files. Processing...";
            "Error processing file battle_summaries/SUMMARY_x.json: [Errno 13] Permission denied: 'battle_summaries/SUMMARY_x.json'"]).
Proof.
  destruct (X8_all_files_fail sort_values_stable objects_raise broken_fs new_app)
    as (Hrun & _ & Hinit).
  - discriminate.
  - repeat constructor.
  - rewrite Hrun, Hinit. split; vm_compute; reflexivity.
Defined.

Lemma X9_witness :
  ∃ links : list link,
    create_widgets (App (Some example_result) NotBuilt NoFigure [] [])
    = (Returned tt, App (Some example_result) (Links links) Blank [] [])
    ∧ links !! 1
      = Some (Link 0 1 "View Detail - SUMMARY_weird.json" example_weird_record).
Proof.
  destruct (X9_one_link_per_record (App (Some example_result) NotBuilt NoFigure [] [])
              example_result) as (links & Hrun & _ & _ & Hlink & _).
  - reflexivity.
  - discriminate.
  - exists links. split; [exact Hrun|].
    apply (Hlink 1 example_weird_record). reflexivity.
Defined.


Lemma X12_witness :
  detail_series (PDict [("characters",
                         PDict [("Acheron", PDict [("total_damage", PNum (900 # 1)%Q)]);
                                ("Pela", PDict [("total_damage", PNum (50 # 1)%Q)])])])
  = Returned (DetailCharts (PStr "Unknown") ["Acheron"; "Pela"]
                           [PNum (900 # 1)%Q; PNum (50 # 1)%Q]).
Proof.
  destruct (X12_series_of_a_document
              [("characters",
                PDict [("Acheron", PDict [("total_damage", PNum (900 # 1)%Q)]);
                       ("Pela", PDict [("total_damage", PNum (50 # 1)%Q)])])])
    as [_ Hseries].
  destruct (Hseries [("Acheron", PDict [("total_damage", PNum (900 # 1)%Q)]);
                     ("Pela", PDict [("total_damage", PNum (50 # 1)%Q)])]
                    [PNum (900 # 1)%Q; PNum (50 # 1)%Q]) as [Hrun _].
  - reflexivity.
  - repeat constructor; by eexists.
  - exact Hrun.
Defined.

Lemma X13_witness :
  show_detail_window sessions_fs session_list new_app
  = (Raised (Exn "AttributeError" "'list' object has no attribute 'get'"),
     App None NotBuilt NoFigure
         [Toplevel "Team Detail: list [MoC] - 2024-01-17 00:00:00" EmptyFigure] [])
  ∧ show_detail_window sessions_fs session_b new_app
    = (Raised (Exn "AttributeError" "'list' object has no attribute 'keys'"),
       App None NotBuilt NoFigure
           [Toplevel "Team Detail: B [PF] - 2024-01-16 10:15:00" EmptyFigure] []).
Proof.
  split.
  - apply (X13_malformed_document_raises sessions_fs session_list new_app
             (PList [PNum (1 # 1)%Q]) eq_refl).
    intros items. discriminate.
  - apply (proj2 (X13_malformed_document_raises sessions_fs session_b new_app _ eq_refl)
             _ (PList []) eq_refl eq_refl).
    intros entries. discriminate.
Defined.

Lemma X14_witness :
  length (bars (ranked_axes sort_values_stable total_dpav false gold skyblue example_frame))
  = 3
  ∧ length (texts (ranked_axes sort_values_stable total_dpav false gold skyblue example_frame))
    = 3
  ∧ ∀ i : nat,
      texts (ranked_axes sort_values_stable total_dpav false gold skyblue example_frame) !! i
      = (λ b, (i, bar_height b))
        <$> bars (ranked_axes sort_values_stable total_dpav false gold skyblue example_frame)
            !! i.
Proof.
  apply (X14_bars_and_annotations sort_values_stable total_dpav false gold skyblue
           example_frame).
  - discriminate.
  - apply sort_values_stable_perm.
Defined.

Lemma X15_witness :
  ∃ b : bar Q,
    bars (ranked_axes sort_values_stable total_dpav false gold skyblue example_frame) !! 1
    = Some b
    ∧ bar_label b = "B [PF]" +:+ PyStr.newline +:+ "2024-01-16 10:15:00".
Proof.
  destruct (X15_bar_label_break sort_values_stable total_dpav false gold skyblue
              example_frame 1
              (Summary "battle_summaries/SUMMARY_B_PF_v1_20240116_101500.json"
                       "B [PF] - 2024-01-16 10:15:00" "20240116101500"
                       (175 # 1)%Q (310 # 1)%Q))
    as (b & Hb & _ & _ & Hbreak & _).
  - discriminate.
  - reflexivity.
  - exists b. split; [exact Hb|].
    apply (Hbreak "B" "PF" "2024-01-16 10:15:00"); reflexivity.
Defined.

Lemma X17_witness :
  ∃ (names : list string) (name : string),
    listdir example_fs "battle_summaries" = Some names ∧ name ∈ names
    ∧ fnmatch_summary name = true
    ∧ filepath example_record = path_join "battle_summaries" name
    ∧ basename (filepath example_record) = name
    ∧ (session_id example_record, timestamp example_record) = session_of_filename name.
Proof.
  apply (X17_record_of_a_directory_entry example_fs "battle_summaries" new_app
           example_result example_record).
  - intros names [= <-]. repeat constructor.
  - vm_compute. reflexivity.
  - apply list_elem_of_here.
Defined.

Lemma X18_witness :
  init sort_values_stable objects_raise string_metric_fs new_app
  = (Raised (Exn "TypeError" "can't multiply sequence by non-int of type 'float'"),
     App (Some [string_metric_record])
         (Links [Link 0 0 "View Detail - SUMMARY_A_MoC_v1_20240115_143022.json"
                      string_metric_record])
         Blank [] ["Found 1 summary files. Processing..."]).
Proof.
  rewrite (X18_overview_error_leaves_init sort_values_stable objects_raise
             string_metric_fs
             (Exn "TypeError" "can't multiply sequence by non-int of type 'float'")).
  - vm_compute. reflexivity.
  - vm_compute. discriminate.
  - vm_compute. reflexivity.
  - reflexivity.
Defined.
